(** * superstore: the cart, checkout and stock operations of [store.ts]

    A shallow embedding of the database-facing functions of [store.ts]
    ([addToCart], [updateCartItem], [placeOrder], [updateStock]) and the
    properties of the cart-to-order transition established on it.

    Modelling decisions.
    - A MongoDB collection is a list of documents in natural (insertion)
      order; [findOne], [updateOne], [replaceOne] and [deleteOne] act on the
      first document that matches the filter, [insertOne] appends.
    - An [ObjectId] is the number its twelve bytes denote, so the order on
      identities is the order on [N].
    - Quantities are JavaScript numbers that the program only ever parses
      from digit strings, adds and compares: they are integers here.  A
      price is only copied and compared for equality: it is an integer
      (minor units) here.
    - Every function runs against a [World]: the four collections and the
      lines written to the console.  An [Async] computation either completes
      normally or throws an [Error] with a message, as the promises of the
      source do.  Calls run one after another: there is no interleaving of
      two buyers' calls.  The one storage fault that is modelled is the
      rejection of [orders.insertOne].
    - Answers typed at the prompts are arguments of the function that asks
      for them, already validated by [getValidInput] / [askForQuantity]. *)

From Stdlib Require Import ZArith List String Ascii Bool Lia DecimalString.
Import ListNotations.
Local Open Scope string_scope.
Local Open Scope Z_scope.

(** ** Documents *)

Definition ObjectId := N.

Module Product.
Record t := mk {
  _id : ObjectId;
  name : string;
  price : Z;
  quantity : Z;
  seller_id : string
}.
End Product.

Module CartItem.
Record t := mk {
  productId : ObjectId;
  name : string;
  price : Z;
  quantity : Z
}.

(** Equality of two embedded documents, field by field, as [$addToSet]
    compares them. *)
Definition eqb (a b : t) : bool :=
  N.eqb (productId a) (productId b) && String.eqb (name a) (name b)
  && Z.eqb (price a) (price b) && Z.eqb (quantity a) (quantity b).
End CartItem.

Module User.
Record t := mk {
  _id : ObjectId;
  username : string;
  role : string
}.
End User.

Module Address.
Record t := mk {
  doorNo : string;
  streetArea : string;
  cityPincode : string
}.
End Address.

(** A document of the [cart] collection.  Cart documents are written by
    [addToCart] and [updateCartItem] only, so [items] is always there. *)
Module Cart.
Record t := mk {
  userId : string;
  items : list CartItem.t
}.
End Cart.

(** A document of the [orders] collection. *)
Module Order.
Record t := mk {
  userId : string;
  items : list CartItem.t;
  orderDate : Z;
  paymentMethod : string;
  address : Address.t
}.
End Order.

(** ** The world: database and console *)

Record World := mkWorld {
  products : list Product.t;
  cart : list Cart.t;
  orders : list Order.t;
  newRegister : list User.t;
  console : list string
}.

Definition set_products (ps : list Product.t) (w : World) : World :=
  mkWorld ps (cart w) (orders w) (newRegister w) (console w).
Definition set_cart (cs : list Cart.t) (w : World) : World :=
  mkWorld (products w) cs (orders w) (newRegister w) (console w).
Definition set_orders (os : list Order.t) (w : World) : World :=
  mkWorld (products w) (cart w) os (newRegister w) (console w).
Definition set_console (ls : list string) (w : World) : World :=
  mkWorld (products w) (cart w) (orders w) (newRegister w) ls.

(** ** Collections *)

Section Collection.
Context {Doc : Type}.
Variable filter : Doc -> bool.

Definition findOne (c : list Doc) : option Doc := List.find filter c.

Fixpoint updateOne (update : Doc -> Doc) (c : list Doc) : list Doc :=
  match c with
  | [] => []
  | d :: c' => if filter d then update d :: c' else d :: updateOne update c'
  end.

Definition replaceOne (replacement : Doc) (c : list Doc) : list Doc :=
  updateOne (fun _ => replacement) c.

(** [updateOne] with [{ upsert: true }]: when no document matches, the
    document built from the filter and the update is inserted. *)
Definition upsertOne (update : Doc -> Doc) (fresh : Doc) (c : list Doc)
  : list Doc :=
  if existsb filter c then updateOne update c else c ++ [fresh].

Fixpoint deleteOne (c : list Doc) : list Doc :=
  match c with
  | [] => []
  | d :: c' => if filter d then c' else d :: deleteOne c'
  end.
End Collection.

Definition insertOne {Doc : Type} (d : Doc) (c : list Doc) : list Doc :=
  c ++ [d].

(** [$addToSet]: the value is appended unless an equal one is in the array. *)
Definition addToSet (x : CartItem.t) (l : list CartItem.t) : list CartItem.t :=
  if existsb (CartItem.eqb x) l then l else l ++ [x].

(** [$inc] on the [quantity] field. *)
Definition incQuantity (by_ : Z) (p : Product.t) : Product.t :=
  Product.mk (Product._id p) (Product.name p) (Product.price p)
             (Product.quantity p + by_) (Product.seller_id p).

Definition byId (id : ObjectId) (p : Product.t) : bool :=
  N.eqb (Product._id p) id.
Definition byUserId (u : string) (c : Cart.t) : bool :=
  String.eqb (Cart.userId c) u.

(** ** Asynchronous computations *)

Inductive Completion (A : Type) : Type :=
| Normal (a : A)
| Thrown (message : string).
Arguments Normal {A} a.
Arguments Thrown {A} message.

Definition Async (A : Type) : Type := World -> Completion A * World.

Definition ret {A} (a : A) : Async A := fun w => (Normal a, w).

Definition bind {A B} (m : Async A) (k : A -> Async B) : Async B :=
  fun w =>
    match m w with
    | (Normal a, w') => k a w'
    | (Thrown e, w') => (Thrown e, w')
    end.

Definition throw {A} (message : string) : Async A :=
  fun w => (Thrown message, w).

Definition tryCatch {A} (body : Async A) (handler : string -> Async A)
  : Async A :=
  fun w =>
    match body w with
    | (Normal a, w') => (Normal a, w')
    | (Thrown e, w') => handler e w'
    end.

Definition gets {A} (f : World -> A) : Async A := fun w => (Normal (f w), w).
Definition modify (f : World -> World) : Async unit :=
  fun w => (Normal tt, f w).

Notation "x <- m ;; k" := (bind m (fun x => k))
  (at level 61, m at next level, right associativity).
Notation "m ;; k" := (bind m (fun _ => k))
  (at level 61, right associativity).

(** [console.log] and [console.error] both write one line. *)
Definition console_log (line : string) : Async unit :=
  modify (fun w => set_console (console w ++ [line]) w).
Definition console_error (line : string) : Async unit :=
  modify (fun w => set_console (console w ++ [line]) w).

(** The world an asynchronous function leaves behind. *)
Definition exec {A} (m : Async A) (w : World) : World := snd (m w).

(** ** Strings *)

Definition showZ (z : Z) : string := NilZero.string_of_int (Z.to_int z).

Definition lowerAscii (c : ascii) : ascii :=
  let n := nat_of_ascii c in
  if (andb (Nat.leb 65 n) (Nat.leb n 90)) then ascii_of_nat (n + 32) else c.

Fixpoint toLowerCase (s : string) : string :=
  match s with
  | EmptyString => EmptyString
  | String c s' => String (lowerAscii c) (toLowerCase s')
  end.

(** ** The program *)

(** [addToCart], store.ts lines 181-197. *)
Definition addToCart (userId : string) (product : Product.t) (quantity : Z)
  : Async unit :=
  let cartItem :=
    CartItem.mk (Product._id product) (Product.name product)
                (Product.price product) quantity in
  modify (fun w =>
    set_cart (upsertOne (byUserId userId)
                (fun c => Cart.mk (Cart.userId c)
                                  (addToSet cartItem (Cart.items c)))
                (Cart.mk userId [cartItem])
                (cart w)) w).

Definition nameIs (productName : string) (item : CartItem.t) : bool :=
  String.eqb (CartItem.name item) productName.

(** [userCart.items[itemIndex].quantity = newQuantity] where [itemIndex] is
    the index of the first item that satisfies the predicate; [None] when
    [findIndex] returns -1. *)
Fixpoint setQuantityAtFirst (found : CartItem.t -> bool) (newQuantity : Z)
    (items : list CartItem.t) : option (list CartItem.t) :=
  match items with
  | [] => None
  | item :: rest =>
      if found item
      then Some (CartItem.mk (CartItem.productId item) (CartItem.name item)
                             (CartItem.price item) newQuantity :: rest)
      else option_map (cons item) (setQuantityAtFirst found newQuantity rest)
  end.

(** [updateCartItem], store.ts lines 222-252. *)
Definition updateCartItem (userId productName : string) (newQuantity : Z)
  : Async unit :=
  userCart <- gets (fun w => findOne (byUserId userId) (cart w)) ;;
  match userCart with
  | None => console_log "Cart not found for this user."
  | Some userCart =>
      let replace (items : list CartItem.t) : Async unit :=
        modify (fun w =>
          set_cart (replaceOne (byUserId userId)
                      (Cart.mk (Cart.userId userCart) items) (cart w)) w) in
      if newQuantity <=? 0 then
        let items :=
          List.filter (fun item => negb (nameIs productName item))
                      (Cart.items userCart) in
        console_log (productName ++ " removed from cart.") ;;
        replace items
      else
        match setQuantityAtFirst (nameIs productName) newQuantity
                                 (Cart.items userCart) with
        | Some items =>
            console_log (productName ++ " quantity updated to "
                         ++ showZ newQuantity ++ ".") ;;
            replace items
        | None => console_log (productName ++ " not found in cart.")
        end
  end.

(** What the buyer typed at the prompts of [placeOrder], the clock read by
    [new Date()], and whether the order collection accepts the insert
    ([Some message]: [orders.insertOne] rejects with that error). *)
Record Checkout := mkCheckout {
  doorNo : string;
  streetArea : string;
  cityPincode : string;
  confirmOrder : string;
  now : Z;
  insertRejects : option string
}.

(** The body of the [for ... of userCart.items] loop of [placeOrder],
    store.ts lines 293-306, iterated over the items in array order. *)
Fixpoint reserveItems (items : list CartItem.t) : Async unit :=
  match items with
  | [] => ret tt
  | item :: rest =>
      product <- gets (fun w =>
                   findOne (byId (CartItem.productId item)) (products w)) ;;
      match product with
      | None => throw ("Product not found: " ++ CartItem.name item)
      | Some product =>
          if Product.quantity product <? CartItem.quantity item
          then throw ("Insufficient stock for " ++ CartItem.name item)
          else
            modify (fun w =>
              set_products
                (updateOne (byId (CartItem.productId item))
                           (incQuantity (- CartItem.quantity item))
                           (products w)) w) ;;
            reserveItems rest
      end
  end.

Definition orders_insertOne (rejects : option string) (order : Order.t)
  : Async unit :=
  match rejects with
  | Some message => throw message
  | None => modify (fun w => set_orders (insertOne order (orders w)) w)
  end.

(** [placeOrder], store.ts lines 254-326. *)
Definition placeOrder (userId : string) (io : Checkout) : Async unit :=
  userCart <- gets (fun w => findOne (byUserId userId) (cart w)) ;;
  match userCart with
  | None => console_log "Your cart is empty. Cannot place order."
  | Some userCart =>
      if Nat.eqb (List.length (Cart.items userCart)) 0 then
        console_log "Your cart is empty. Cannot place order."
      else
        console_log "Payment method: Cash on Delivery" ;;
        let address :=
          Address.mk (doorNo io) (streetArea io) (cityPincode io) in
        if negb (String.eqb (toLowerCase (confirmOrder io)) "yes") then
          console_log "Order cancelled."
        else
          tryCatch
            (reserveItems (Cart.items userCart) ;;
             orders_insertOne (insertRejects io)
               (Order.mk userId (Cart.items userCart) (now io)
                         "Cash on Delivery" address) ;;
             modify (fun w =>
               set_cart (deleteOne (byUserId userId) (cart w)) w) ;;
             console_log "Order placed successfully!")
            (fun message =>
               console_error ("Failed to place order: " ++ message))
  end.

(** The validated answers to the prompts of [updateStock]: the number read
    by [parseInt] ([None] for [NaN]), the action, and the quantity returned
    by [askForQuantity]. *)
Inductive StockAction := increase | decrease.

Record Restock := mkRestock {
  productNumber : option Z;
  action : StockAction;
  quantityChange : Z
}.

(** [sellerProducts.forEach((product, index) => console.log(...))]. *)
Fixpoint logStock (index : Z) (sellerProducts : list Product.t) : Async unit :=
  match sellerProducts with
  | [] => ret tt
  | product :: rest =>
      console_log (showZ (index + 1) ++ ". " ++ Product.name product
                   ++ " - Current stock: " ++ showZ (Product.quantity product)) ;;
      logStock (index + 1) rest
  end.

(** [updateStock], store.ts lines 405-468.  [seller_id] is the [ObjectId]
    that the seller's identifier string denotes. *)
Definition updateStock (seller_id : ObjectId) (io : Restock) : Async unit :=
  seller <- gets (fun w =>
              findOne (fun u => N.eqb (User._id u) seller_id) (newRegister w)) ;;
  match seller with
  | None => console_log "Seller not found."
  | Some seller =>
      let sellerUsername := User.username seller in
      sellerProducts <- gets (fun w =>
        List.filter (fun p => String.eqb (Product.seller_id p) sellerUsername)
                    (products w)) ;;
      if Nat.eqb (List.length sellerProducts) 0 then
        console_log "You don't have any products to update."
      else
        console_log "Your products:" ;;
        logStock 0 sellerProducts ;;
        match productNumber io with
        | None => console_log "Invalid product number."
        | Some number =>
            let productIndex := number - 1 in
            if (productIndex <? 0)
               || (productIndex >=? Z.of_nat (List.length sellerProducts))
            then console_log "Invalid product number."
            else
              match nth_error sellerProducts (Z.to_nat productIndex) with
              | None => ret tt
              | Some selectedProduct =>
                  let updateQuantity :=
                    match action io with
                    | increase => quantityChange io
                    | decrease => - quantityChange io
                    end in
                  if Product.quantity selectedProduct + updateQuantity <? 0
                  then console_log "Error: Stock cannot be negative."
                  else
                    modify (fun w =>
                      set_products
                        (updateOne (byId (Product._id selectedProduct))
                                   (incQuantity updateQuantity)
                                   (products w)) w) ;;
                    console_log
                      ("Stock updated. New stock for "
                       ++ Product.name selectedProduct ++ ": "
                       ++ showZ (Product.quantity selectedProduct
                                 + updateQuantity))
              end
        end
  end.

(** ** Vocabulary of the statements *)

(** The lines of a buyer's cart; no cart document reads as no lines. *)
Definition snapshot (userId : string) (w : World) : list CartItem.t :=
  match findOne (byUserId userId) (cart w) with
  | Some c => Cart.items c
  | None => []
  end.

(** The stock quantity of a product, if it exists. *)
Definition stock (id : ObjectId) (w : World) : option Z :=
  option_map Product.quantity (findOne (byId id) (products w)).

(** A demand that cannot be met from [ps]: the product does not exist or
    has less than the requested quantity. *)
Definition lineFails (ps : list Product.t) (item : CartItem.t) : bool :=
  match findOne (byId (CartItem.productId item)) ps with
  | None => true
  | Some product => Product.quantity product <? CartItem.quantity item
  end.

(** The message of the error thrown for a failing line. *)
Definition failureMessage (ps : list Product.t) (item : CartItem.t) : string :=
  match findOne (byId (CartItem.productId item)) ps with
  | None => "Product not found: " ++ CartItem.name item
  | Some _ => "Insufficient stock for " ++ CartItem.name item
  end.

(** The [$inc] of one line, and of a sequence of lines in order. *)
Definition decrement (ps : list Product.t) (item : CartItem.t)
  : list Product.t :=
  updateOne (byId (CartItem.productId item))
            (incQuantity (- CartItem.quantity item)) ps.

Definition reserved (ps : list Product.t) (items : list CartItem.t)
  : list Product.t :=
  fold_left decrement items ps.

(** Every line of [items] is met in turn, each from the stock that the
    lines before it have left. *)
Fixpoint allPass (ps : list Product.t) (items : list CartItem.t) : bool :=
  match items with
  | [] => true
  | item :: rest => negb (lineFails ps item) && allPass (decrement ps item) rest
  end.

(** The loop of [placeOrder] as a function of the product collection: the
    error it stops with, if any, and the collection it leaves. *)
Fixpoint reserveRun (items : list CartItem.t) (ps : list Product.t)
  : option string * list Product.t :=
  match items with
  | [] => (None, ps)
  | item :: rest =>
      if lineFails ps item then (Some (failureMessage ps item), ps)
      else reserveRun rest (decrement ps item)
  end.

Definition stockNonNegative (w : World) : Prop :=
  Forall (fun p => 0 <= Product.quantity p) (products w).

(** MongoDB keeps [_id] unique within a collection. *)
Definition uniqueIds (w : World) : Prop :=
  NoDup (map Product._id (products w)).

Definition lastLine (w : World) : string := last (console w) "".

(** The run of [placeOrder] that ends in [w] committed an order. *)
Definition orderPlaced (w : World) : Prop :=
  lastLine w = "Order placed successfully!".

(** The run of [updateCartItem] that ends in [w] reported that no line of
    the cart has the name. *)
Definition lineNotFound (productName : string) (w : World) : Prop :=
  lastLine w = productName ++ " not found in cart.".

Definition paymentLine : string := "Payment method: Cash on Delivery".

Definition orderOf (userId : string) (c : Cart.t) (io : Checkout) : Order.t :=
  Order.mk userId (Cart.items c) (now io) "Cash on Delivery"
           (Address.mk (doorNo io) (streetArea io) (cityPincode io)).

Definition setQuantity (newQuantity : Z) (item : CartItem.t) : CartItem.t :=
  CartItem.mk (CartItem.productId item) (CartItem.name item)
              (CartItem.price item) newQuantity.

Definition lineOf (product : Product.t) (quantity : Z) : CartItem.t :=
  CartItem.mk (Product._id product) (Product.name product)
              (Product.price product) quantity.

(** The lines [logStock] writes. *)
Fixpoint stockLines (index : Z) (sellerProducts : list Product.t)
  : list string :=
  match sellerProducts with
  | [] => []
  | product :: rest =>
      (showZ (index + 1) ++ ". " ++ Product.name product
       ++ " - Current stock: " ++ showZ (Product.quantity product))
      :: stockLines (index + 1) rest
  end.

(** The signed change [updateStock] computes from the seller's answers. *)
Definition updateQuantityOf (io : Restock) : Z :=
  match action io with
  | increase => quantityChange io
  | decrease => - quantityChange io
  end.

(** ** Scenarios *)

Definition emptyWorld : World := mkWorld [] [] [] [] [].

Definition productP : Product.t := Product.mk 1%N "P" 1000 5 "sam".
Definition productQ : Product.t := Product.mk 2%N "Q" 250 2 "sam".

Definition yes : Checkout :=
  mkCheckout "12" "Main Street" "Pune, 411001" "yes" 0 None.

(** Scenario B of the specification: P has 5 in stock, Q has 2, and the cart
    asks for 3 of each. *)
Definition scenarioB : World :=
  exec (addToCart "buyer" productP 3 ;; addToCart "buyer" productQ 3)
       (set_products [productP; productQ] emptyWorld).

(** Scenario C: P is added with quantity 3 and then with quantity 5. *)
Definition scenarioC : World :=
  exec (addToCart "buyer" productP 3 ;; addToCart "buyer" productP 5)
       (set_products [productP; productQ] emptyWorld).

(** Scenario A, but the order collection rejects the insert. *)
Definition scenarioA : World :=
  exec (addToCart "buyer" productP 3)
       (set_products [productP; productQ] emptyWorld).

Definition storageDown : Checkout :=
  mkCheckout "12" "Main Street" "Pune, 411001" "yes" 0
             (Some "connection closed").

(** Two products out of stock, put in the cart in descending identity. *)
Definition soldOutA : Product.t := Product.mk 1%N "A" 100 0 "sam".
Definition soldOutB : Product.t := Product.mk 2%N "B" 100 0 "sam".

Definition scenarioDescending : World :=
  exec (addToCart "buyer" soldOutB 1 ;; addToCart "buyer" soldOutA 1)
       (set_products [soldOutA; soldOutB] emptyWorld).

(** A seller with the two products P and Q. *)
Definition sellerWorld : World :=
  mkWorld [productP; productQ] [] [] [User.mk 7%N "sam" "seller"] [].

(** The seller asks to take 3 from the second product, Q, which has 2. *)
Definition overdraw : Restock := mkRestock (Some 2) decrease 3.

(** P after the seller has renamed and repriced it, and P after a restock. *)
Definition repricedP : Product.t := Product.mk 1%N "P (new)" 1999 5 "sam".
Definition restockedP : Product.t := Product.mk 1%N "P" 1000 40 "sam".

(** Two products of different identity and sellers that share a name, in a
    cart together with P. *)
Definition appleOfSam : Product.t := Product.mk 3%N "apple" 80 10 "sam".
Definition appleOfKim : Product.t := Product.mk 4%N "apple" 95 10 "kim".

Definition scenarioApples : World :=
  exec (addToCart "buyer" appleOfSam 1 ;; addToCart "buyer" productP 3 ;;
        addToCart "buyer" appleOfKim 2)
       (set_products [productP; appleOfSam; appleOfKim] emptyWorld).

(** ** The terminal *)

(** A [Dialog] reads the lines typed at the terminal, in order: it ends
    with an answer and the lines not yet read, or is left waiting for a
    line that never comes ([None]); either way it has written some lines
    with [console.log].  The text of a question itself is not recorded. *)
Definition Dialog (A : Type) : Type :=
  list string -> option (A * list string) * list string.

(** [askQuestion], store.ts lines 45-47. *)
Definition askQuestion : Dialog string :=
  fun stdin =>
    match stdin with
    | [] => (None, [])
    | answer :: rest => (Some (answer, rest), [])
    end.

Definition isDigit (c : ascii) : bool :=
  let n := nat_of_ascii c in Nat.leb 48 n && Nat.leb n 57.

Fixpoint allDigits (s : string) : bool :=
  match s with
  | EmptyString => true
  | String c s' => isDigit c && allDigits s'
  end.

(** [isValidPhoneNumber], store.ts lines 124-126: [/^\d{10}$/]. *)
Definition isValidPhoneNumber (input : string) : bool :=
  Nat.eqb (String.length input) 10 && allDigits input.

(** [isValidRole], store.ts lines 128-130.  No character outside ASCII
    has a lower case among the letters of the words compared here and in
    [isYesNoResponse], so lower-casing the ASCII letters decides them. *)
Definition isValidRole (input : string) : bool :=
  String.eqb (toLowerCase input) "buyer"
  || String.eqb (toLowerCase input) "seller".


(** White space as [String.prototype.trim] sees it, on the UTF-8 bytes of
    the string: TAB, LF, VT, FF, CR and SP in one byte; U+00A0 in two;
    U+1680, U+2000 to U+200A, U+2028, U+2029, U+202F, U+205F, U+3000 and
    U+FEFF in three. *)
Definition white1 (c : ascii) : bool :=
  let n := nat_of_ascii c in
  (Nat.leb 9 n && Nat.leb n 13) || Nat.eqb n 32.

Definition white2 (c1 c2 : ascii) : bool :=
  Nat.eqb (nat_of_ascii c1) 194 && Nat.eqb (nat_of_ascii c2) 160.

Definition white3 (c1 c2 c3 : ascii) : bool :=
  let n1 := nat_of_ascii c1 in
  let n2 := nat_of_ascii c2 in
  let n3 := nat_of_ascii c3 in
  (Nat.eqb n1 225 && Nat.eqb n2 154 && Nat.eqb n3 128)
  || (Nat.eqb n1 226 && Nat.eqb n2 128
      && ((Nat.leb 128 n3 && Nat.leb n3 138)
          || Nat.eqb n3 168 || Nat.eqb n3 169 || Nat.eqb n3 175))
  || (Nat.eqb n1 226 && Nat.eqb n2 129 && Nat.eqb n3 159)
  || (Nat.eqb n1 227 && Nat.eqb n2 128 && Nat.eqb n3 128)
  || (Nat.eqb n1 239 && Nat.eqb n2 187 && Nat.eqb n3 191).

Fixpoint trimStart (s : string) : string :=
  match s with
  | EmptyString => EmptyString
  | String c1 r1 =>
      if white1 c1 then trimStart r1
      else
        match r1 with
        | EmptyString => s
        | String c2 r2 =>
            if white2 c1 c2 then trimStart r2
            else
              match r2 with
              | EmptyString => s
              | String c3 r3 => if white3 c1 c2 c3 then trimStart r3 else s
              end
        end
  end.

(** [input.trim() === ""]: nothing is left of the input once its leading
    white space is dropped. *)
Definition isBlank (input : string) : bool := String.eqb (trimStart input) "".

Definition requiredLine : string :=
  "This is required! Please enter valid information.".

(** [getValidInput], store.ts lines 111-122.  Each turn of the loop reads
    one line. *)
Fixpoint getValidInput (validator : string -> bool) (errorMessage : string)
    (stdin : list string) : option (string * list string) * list string :=
  match stdin with
  | [] => (None, [])
  | input :: rest =>
      if isBlank input then
        let (result, lines) := getValidInput validator errorMessage rest in
        (result, requiredLine :: lines)
      else if validator input then (Some (input, rest), [])
      else
        let (result, lines) := getValidInput validator errorMessage rest in
        (result, errorMessage :: lines)
  end.

(** [parseInt] of a string of decimal digits: the number the digits
    denote.  A JavaScript number holds it exactly when the string has at
    most 15 digits; a longer string may be rounded, so every statement
    that names the value returned is about answers of at most 15 digits. *)
Definition digitValue (c : ascii) : Z := Z.of_nat (nat_of_ascii c) - 48.

Fixpoint parseDigits (acc : Z) (s : string) : Z :=
  match s with
  | EmptyString => acc
  | String c s' => parseDigits (10 * acc + digitValue c) s'
  end.

Definition parseInt (input : string) : Z := parseDigits 0 input.

(** [/^\d+$/.test(input)]. *)
Definition onlyDigits (input : string) : bool :=
  negb (String.eqb input "") && allDigits input.

Definition quantityLine : string := "Please enter a valid positive number.".

(** [askForQuantity], store.ts lines 168-179. *)
Fixpoint askForQuantity (stdin : list string)
  : option (Z * list string) * list string :=
  match stdin with
  | [] => (None, [])
  | input :: rest =>
      if onlyDigits input && (0 <? parseInt input)
      then (Some (parseInt input, rest), [])
      else
        let (result, lines) := askForQuantity rest in
        (result, quantityLine :: lines)
  end.

Definition dret {A} (a : A) : Dialog A := fun stdin => (Some (a, stdin), []).


(** ** Accounts *)

(** A document of the [login] collection, with the fields that [login]
    reads.  The program never writes this collection, so the stored
    password need not be a string: it is a text, or some other value, of
    which only the typed strings that [==] lets equal it matter. *)
Module Login.
Inductive stored :=
| Text (text : string)
| Other (equalsTyped : string -> bool).

Record t := mk {
  _id : ObjectId;
  username : string;
  password : stored;
  role : string
}.
End Login.

(** [password == user.password], store.ts line 66, with a typed string on
    the left: equality of strings against a text, and against any other
    stored value whatever the coercions of [==] make of the two. *)
Definition looselyEquals (typed : string) (stored : Login.stored) : bool :=
  match stored with
  | Login.Text text => String.eqb typed text
  | Login.Other equalsTyped => equalsTyped typed
  end.

(** A document of the [newRegister] collection, as [registerUser] writes
    it. *)
Module Account.
Record t := mk {
  _id : ObjectId;
  name : string;
  username : string;
  password : string;
  phoneNumber : string;
  role : string;
  createdAt : Z
}.
End Account.

(** The two collections that hold credentials: [users] is the [login]
    collection, [newRegisters] the [newRegister] collection. *)
Record Accounts := mkAccounts {
  users : list Login.t;
  newRegisters : list Account.t
}.

(** What [login] returns when it does not return [null]. *)
Module Session.
Record t := mk {
  userId : string;
  role : string
}.
End Session.

(** [ObjectId.prototype.toString]: the twelve bytes as 24 lower-case
    hexadecimal digits. *)
Definition hexChar (n : N) : ascii :=
  if (n <? 10)%N then ascii_of_N (48 + n) else ascii_of_N (87 + n).

Fixpoint hexDigits (count : nat) (n : N) (acc : string) : string :=
  match count with
  | O => acc
  | S count' => hexDigits count' (n / 16)%N (String (hexChar (n mod 16)%N) acc)
  end.

Definition toString (id : ObjectId) : string := hexDigits 24 id "".

(** [login], store.ts lines 59-80: the session or [null], and the line
    written. *)
Definition login (username password : string) (db : Accounts)
  : option Session.t * list string :=
  let inNewRegister :=
    match findOne (fun u => String.eqb (Account.username u) username)
                  (newRegisters db) with
    | Some newRegister =>
        if String.eqb password (Account.password newRegister) then
          (Some (Session.mk (toString (Account._id newRegister))
                            (Account.role newRegister)),
           ["Successfully logged in!"])
        else (None, ["Incorrect username or password"])
    | None => (None, ["Incorrect username or password"])
    end in
  match findOne (fun u => String.eqb (Login.username u) username) (users db)
  with
  | Some user =>
      if looselyEquals password (Login.password user) then
        (Some (Session.mk (toString (Login._id user)) (Login.role user)),
         ["Successfully logged in!"])
      else inNewRegister
  | None => inNewRegister
  end.

(** [registerUser], store.ts lines 82-109.  [insertedId] is the [_id] the
    driver gives the new document and [now] the clock that [new Date()]
    reads.  The result is the completion, the database and the lines
    written. *)
Definition registerUser (name username password phoneNumber role : string)
    (insertedId : ObjectId) (now : Z) (db : Accounts)
  : Completion unit * Accounts * list string :=
  if String.eqb name "" || String.eqb username "" || String.eqb password ""
     || String.eqb phoneNumber ""
  then (Thrown "Please enter valid values", db, [])
  else
    match findOne (fun u => String.eqb (Account.username u) username)
                  (newRegisters db) with
    | Some existingUser =>
        (Thrown "Username already exists. Please choose a different username.",
         db, [])
    | None =>
        (Normal tt,
         mkAccounts (users db)
           (insertOne (Account.mk insertedId name username password
                                  phoneNumber role now)
                      (newRegisters db)),
         ["User registered successfully!"])
    end.

Definition doubleQuote : string := String (ascii_of_nat 34) EmptyString.

Definition phoneLine : string :=
  "Please enter only 10 digits/please enter only numbers".

Definition roleLine : string :=
  "Please enter either " ++ doubleQuote ++ "buyer" ++ doubleQuote
  ++ " or " ++ doubleQuote ++ "seller" ++ doubleQuote.


(** ** The catalogue *)

(** [findProduct], store.ts lines 162-166. *)
Definition findProduct (productName : string) : Async (option Product.t) :=
  gets (fun w =>
    findOne (fun p => String.eqb (Product.name p) productName) (products w)).

(** The answers to the prompts of [addProduct]: the name as typed, the
    price that [parseFloat] made of the second answer, the quantity
    returned by [askForQuantity]; and the [_id] that the driver gives the
    inserted document. *)
Record NewProduct := mkNewProduct {
  typedName : string;
  parsedPrice : Z;
  askedQuantity : Z;
  givenId : ObjectId
}.

(** [addProduct], store.ts lines 470-495. *)
Definition addProduct (seller_id : ObjectId) (io : NewProduct) : Async unit :=
  seller <- gets (fun w =>
              findOne (fun u => N.eqb (User._id u) seller_id) (newRegister w)) ;;
  match seller with
  | None => console_log "Seller not found."
  | Some seller =>
      let newProduct :=
        Product.mk (givenId io) (typedName io) (parsedPrice io)
                   (askedQuantity io) (User.username seller) in
      modify (fun w => set_products (insertOne newProduct (products w)) w) ;;
      console_log "Product added successfully!"
  end.

(** ** Vocabulary of the further statements *)

Fixpoint allZeros (s : string) : bool :=
  match s with
  | EmptyString => true
  | String c s' => Nat.eqb (nat_of_ascii c) 48 && allZeros s'
  end.

(** An answer that [askForQuantity] takes: decimal digits, at least one,
    not all of them zero. *)
Definition acceptableQuantity (input : string) : bool :=
  onlyDigits input && negb (allZeros input).

(** An answer that [getValidInput] takes. *)
Definition acceptableInput (validator : string -> bool) (input : string)
  : bool :=
  negb (isBlank input) && validator input.

(** The line [getValidInput] writes for an answer it does not take. *)
Definition rejectionLine (errorMessage input : string) : string :=
  if isBlank input then requiredLine else errorMessage.

(** At most one cart document for a buyer. *)
Definition uniqueCarts (w : World) : Prop :=
  NoDup (map Cart.userId (cart w)).

(** Every line of every cart asks for a positive quantity. *)
Definition cartsPositive (w : World) : Prop :=
  Forall (fun c => Forall (fun item => 0 < CartItem.quantity item)
                          (Cart.items c))
         (cart w).

(** A line without its quantity. *)
Definition lineKey (item : CartItem.t) : ObjectId * string * Z :=
  (CartItem.productId item, CartItem.name item, CartItem.price item).

(** The quantity a list of lines asks of one product. *)
Fixpoint demand (id : ObjectId) (items : list CartItem.t) : Z :=
  match items with
  | [] => 0
  | item :: rest =>
      (if N.eqb (CartItem.productId item) id then CartItem.quantity item else 0)
      + demand id rest
  end.

(** The stock quantity of a product in a product collection. *)
Definition stockIn (ps : list Product.t) (id : ObjectId) : option Z :=
  option_map Product.quantity (findOne (byId id) ps).

(** No two accounts of the [newRegister] collection share a username. *)
Definition uniqueUsernames (db : Accounts) : Prop :=
  NoDup (map Account.username (newRegisters db)).

Definition byUsername (username : string) (a : Account.t) : bool :=
  String.eqb (Account.username a) username.



Definition ann : Account.t :=
  Account.mk 9%N "Ann" "ann" "pw" "0123456789" "Seller" 0.

Definition legacy : Login.t := Login.mk 5%N "ann" (Login.Text "old") "buyer".

(** The products of a seller, in the order [updateStock] numbers them. *)
Definition productsOf (sellerUsername : string) (w : World) : list Product.t :=
  List.filter (fun p => String.eqb (Product.seller_id p) sellerUsername)
              (products w).

Definition bySellerId (seller_id : ObjectId) (u : User.t) : bool :=
  N.eqb (User._id u) seller_id.

Definition pear : NewProduct := mkNewProduct "pear" 120 6 8%N.

Definition restockQ : Restock := mkRestock (Some 2) increase 10.

(** Two sellers, each with one product. *)
Definition marketWorld : World :=
  mkWorld [productP; appleOfKim] [] []
          [User.mk 7%N "sam" "seller"; User.mk 11%N "kim" "seller"] [].

Definition outOfRange : Restock := mkRestock (Some 3) increase 1.

(** [Number.MAX_SAFE_INTEGER]: up to it, sums and differences of integers
    are exact in JavaScript and print with all their digits. *)
Definition maxSafeInteger : Z := 9007199254740991.

Definition safeStock (w : World) : Prop :=
  Forall (fun p => Product.quantity p <= maxSafeInteger) (products w).

(** ** Histories *)

(** What can happen between an [addToCart] and a checkout: the calls of
    the program that write to the database, by any buyer or seller, and
    any change whatever of the product collection (a seller renaming or
    repricing a product). *)
Inductive Op :=
| AddToCart (userId : string) (product : Product.t) (quantity : Z)
| UpdateCartItem (userId productName : string) (newQuantity : Z)
| PlaceOrder (userId : string) (io : Checkout)
| UpdateStock (seller_id : ObjectId) (io : Restock)
| AddProduct (seller_id : ObjectId) (io : NewProduct)
| ChangeProducts (changed : list Product.t).

Definition step (op : Op) (w : World) : World :=
  match op with
  | AddToCart userId product quantity =>
      exec (addToCart userId product quantity) w
  | UpdateCartItem userId productName newQuantity =>
      exec (updateCartItem userId productName newQuantity) w
  | PlaceOrder userId io => exec (placeOrder userId io) w
  | UpdateStock seller_id io => exec (updateStock seller_id io) w
  | AddProduct seller_id io => exec (addProduct seller_id io) w
  | ChangeProducts changed => set_products changed w
  end.

Fixpoint run (history : list Op) (w : World) : World :=
  match history with
  | [] => w
  | op :: later => run later (step op w)
  end.

(** The line that a call of [addToCart] for the buyer builds from the
    product it is given: the product's identity, name and price at that
    moment. *)
Definition addedBy (userId : string) (op : Op) : list CartItem.t :=
  match op with
  | AddToCart buyer product quantity =>
      if String.eqb buyer userId then [lineOf product quantity] else []
  | _ => []
  end.

(** The lines built by the buyer's calls of [addToCart], in the order of
    the calls. *)
Definition added (userId : string) (history : list Op) : list CartItem.t :=
  flat_map (addedBy userId) history.

(** [Sublist l1 l2]: the elements of [l1] are elements of [l2], each one
    its own, in the same order. *)
Inductive Sublist {A : Type} : list A -> list A -> Prop :=
| Sublist_nil : Sublist [] []
| Sublist_skip (x : A) (l1 l2 : list A) : Sublist l1 l2 -> Sublist l1 (x :: l2)
| Sublist_keep (x : A) (l1 l2 : list A) :
    Sublist l1 l2 -> Sublist (x :: l1) (x :: l2).

(** P is added twice, renamed and repriced in between, with an update of
    a quantity and another buyer's checkout on the way. *)
Definition repricing : list Op :=
  [AddToCart "buyer" productP 2;
   ChangeProducts [repricedP; productQ];
   AddToCart "other" productQ 1;
   AddToCart "buyer" repricedP 1;
   UpdateCartItem "buyer" "P" 3;
   PlaceOrder "other" yes].

(** ** Collections: lemmas *)

Section CollectionFacts.
Context {Doc : Type}.
Variable q : Doc -> bool.

Lemma findOne_In (c : list Doc) (d : Doc) :
  findOne q c = Some d -> In d c /\ q d = true.
Proof. unfold findOne. apply find_some. Qed.

Lemma findOne_none (c : list Doc) :
  findOne q c = None -> existsb q c = false.
Proof.
  unfold findOne. induction c as [|d c IH]; simpl; trivial.
  destruct (q d); [discriminate | exact IH].
Qed.

Lemma findOne_some_existsb (c : list Doc) (d : Doc) :
  findOne q c = Some d -> existsb q c = true.
Proof.
  intros H. apply findOne_In in H. apply existsb_exists. now exists d.
Qed.

(** A property of every document survives [updateOne] when the update of
    the document that [findOne] returns has it. *)
Lemma Forall_updateOne (P : Doc -> Prop) (u : Doc -> Doc) (c : list Doc) :
  Forall P c ->
  (forall d, findOne q c = Some d -> P (u d)) ->
  Forall P (updateOne q u c).
Proof.
  unfold findOne. induction c as [|d c IH]; simpl; intros Hc Hu; trivial.
  inversion Hc as [|? ? Hd Hrest]; subst.
  destruct (q d) eqn:E.
  - constructor; [apply Hu; reflexivity | exact Hrest].
  - constructor; [exact Hd | apply IH; assumption].
Qed.

Lemma findOne_updateOne (u : Doc -> Doc) (c : list Doc) (d : Doc) :
  findOne q c = Some d -> q (u d) = true ->
  findOne q (updateOne q u c) = Some (u d).
Proof.
  unfold findOne. induction c as [|x c IH]; simpl; intros H Hq.
  - discriminate.
  - destruct (q x) eqn:E.
    + injection H as ->. simpl. now rewrite Hq.
    + simpl. rewrite E. now apply IH.
Qed.

Lemma updateOne_id (u : Doc -> Doc) (c : list Doc) (d : Doc) :
  findOne q c = Some d -> u d = d -> updateOne q u c = c.
Proof.
  unfold findOne. induction c as [|x c IH]; simpl; intros H Hu; trivial.
  destruct (q x) eqn:E.
  - injection H as ->. now rewrite Hu.
  - f_equal. now apply IH.
Qed.

Lemma findOne_app_none (c : list Doc) (d : Doc) :
  findOne q c = None -> q d = true -> findOne q (c ++ [d])%list = Some d.
Proof.
  unfold findOne. induction c as [|x c IH]; simpl; intros H Hq.
  - now rewrite Hq.
  - destruct (q x); [discriminate | now apply IH].
Qed.
End CollectionFacts.

Lemma CartItem_eqb_eq (a b : CartItem.t) : CartItem.eqb a b = true <-> a = b.
Proof.
  unfold CartItem.eqb. rewrite !andb_true_iff, N.eqb_eq, String.eqb_eq, !Z.eqb_eq.
  destruct a, b; simpl. split.
  - intros [[[-> ->] ->] ->]. reflexivity.
  - intros H. injection H as -> -> -> ->. auto.
Qed.

Lemma existsb_eqb_In (x : CartItem.t) (l : list CartItem.t) :
  existsb (CartItem.eqb x) l = true <-> In x l.
Proof.
  rewrite existsb_exists. split.
  - intros [y [Hy E]]. apply CartItem_eqb_eq in E. now subst.
  - intros H. exists x. split; [exact H | now apply CartItem_eqb_eq].
Qed.

Lemma addToSet_present (x : CartItem.t) (l : list CartItem.t) :
  In x l -> addToSet x l = l.
Proof.
  intros H. unfold addToSet. apply existsb_eqb_In in H. now rewrite H.
Qed.

Lemma addToSet_absent (x : CartItem.t) (l : list CartItem.t) :
  ~ In x l -> addToSet x l = (l ++ [x])%list.
Proof.
  intros H. unfold addToSet. destruct (existsb (CartItem.eqb x) l) eqn:E; trivial.
  apply existsb_eqb_In in E. contradiction.
Qed.

Lemma In_addToSet (x : CartItem.t) (l : list CartItem.t) : In x (addToSet x l).
Proof.
  unfold addToSet. destruct (existsb (CartItem.eqb x) l) eqn:E.
  - now apply existsb_eqb_In.
  - apply in_or_app. right. now left.
Qed.

(** ** The world: lemmas *)

Lemma set_products_same (w : World) : set_products (products w) w = w.
Proof. now destruct w. Qed.

Lemma set_cart_same (w : World) : set_cart (cart w) w = w.
Proof. now destruct w. Qed.

(** ** The reservation loop *)

Lemma reserveItems_run (items : list CartItem.t) (w : World) :
  reserveItems items w =
  (match fst (reserveRun items (products w)) with
   | None => Normal tt
   | Some message => Thrown message
   end,
   set_products (snd (reserveRun items (products w))) w).
Proof.
  revert w. induction items as [|item rest IH]; intros w; simpl.
  - unfold ret. now rewrite set_products_same.
  - unfold bind, gets, lineFails, failureMessage.
    destruct (findOne (byId (CartItem.productId item)) (products w))
      as [product|] eqn:Hfind; simpl.
    + destruct (Product.quantity product <? CartItem.quantity item); simpl.
      * unfold throw. now rewrite set_products_same.
      * rewrite IH. destruct w; reflexivity.
    + unfold throw. now rewrite set_products_same.
Qed.

Lemma reserveRun_allPass (items : list CartItem.t) (ps : list Product.t) :
  allPass ps items = true -> reserveRun items ps = (None, reserved ps items).
Proof.
  revert ps. induction items as [|item rest IH]; intros ps H; simpl in *; trivial.
  apply andb_true_iff in H as [Hitem Hrest].
  apply negb_true_iff in Hitem. rewrite Hitem. now apply IH.
Qed.

Lemma reserveRun_fails (pre post : list CartItem.t) (item : CartItem.t)
    (ps : list Product.t) :
  allPass ps pre = true ->
  lineFails (reserved ps pre) item = true ->
  reserveRun (pre ++ item :: post)%list ps =
  (Some (failureMessage (reserved ps pre) item), reserved ps pre).
Proof.
  revert ps. induction pre as [|x pre IH]; intros ps Hpre Hitem; simpl in *.
  - now rewrite Hitem.
  - apply andb_true_iff in Hpre as [Hx Hpre].
    apply negb_true_iff in Hx. rewrite Hx. now apply IH.
Qed.

Lemma decrement_nonneg (ps : list Product.t) (item : CartItem.t) :
  Forall (fun p => 0 <= Product.quantity p) ps ->
  lineFails ps item = false ->
  Forall (fun p => 0 <= Product.quantity p) (decrement ps item).
Proof.
  intros Hps Hok. unfold decrement. apply Forall_updateOne; trivial.
  intros d Hd. unfold lineFails in Hok. rewrite Hd in Hok.
  apply Z.ltb_ge in Hok. simpl. lia.
Qed.

Lemma reserveRun_nonneg (items : list CartItem.t) (ps : list Product.t) :
  Forall (fun p => 0 <= Product.quantity p) ps ->
  Forall (fun p => 0 <= Product.quantity p) (snd (reserveRun items ps)).
Proof.
  revert ps. induction items as [|item rest IH]; intros ps Hps; simpl; trivial.
  destruct (lineFails ps item) eqn:E; simpl; trivial.
  apply IH. now apply decrement_nonneg.
Qed.

(** ** [placeOrder]: what a run does *)

(** A run that gets past the empty-cart guard and the confirmation. *)
Lemma placeOrder_run (userId : string) (io : Checkout) (w : World) (c : Cart.t) :
  findOne (byUserId userId) (cart w) = Some c ->
  Cart.items c <> [] ->
  toLowerCase (confirmOrder io) = "yes" ->
  placeOrder userId io w =
  (Normal tt,
   let ps := snd (reserveRun (Cart.items c) (products w)) in
   match fst (reserveRun (Cart.items c) (products w)), insertRejects io with
   | Some message, _ | None, Some message =>
       mkWorld ps (cart w) (orders w) (newRegister w)
               (console w ++ [paymentLine; "Failed to place order: " ++ message])
   | None, None =>
       mkWorld ps (deleteOne (byUserId userId) (cart w))
               (orders w ++ [orderOf userId c io]) (newRegister w)
               (console w ++ [paymentLine; "Order placed successfully!"])
   end).
Proof.
  intros Hcart Hitems Hyes.
  assert (Hlen : Nat.eqb (List.length (Cart.items c)) 0 = false)
    by (destruct (Cart.items c); [congruence | reflexivity]).
  unfold placeOrder, bind at 1, gets at 1. rewrite Hcart, Hlen, Hyes.
  cbn [String.eqb Ascii.eqb Bool.eqb negb].
  unfold tryCatch, bind, console_log, console_error, orders_insertOne, modify.
  rewrite reserveItems_run.
  unfold set_console, set_products, set_orders, set_cart, throw, insertOne,
    orderOf, paymentLine.
  cbn [products cart orders newRegister console].
  destruct (reserveRun (Cart.items c) (products w)) as [[message|] ps];
    cbn [fst snd products cart orders newRegister console].
  - now rewrite <- app_assoc.
  - destruct (insertRejects io) as [message|];
      cbn [fst snd products cart orders newRegister console];
      now rewrite <- app_assoc.
Qed.

(** A run stopped by the empty-cart guard writes one line and touches
    nothing else. *)
Lemma placeOrder_guard (userId : string) (io : Checkout) (w : World) :
  snapshot userId w = [] ->
  placeOrder userId io w =
  (Normal tt,
   set_console (console w ++ ["Your cart is empty. Cannot place order."]) w).
Proof.
  unfold snapshot, placeOrder, bind, gets. intros H.
  destruct (findOne (byUserId userId) (cart w)) as [c|]; [|reflexivity].
  now rewrite H.
Qed.

(** A run that the buyer does not confirm writes two lines and touches
    nothing else. *)
Lemma placeOrder_cancelled (userId : string) (io : Checkout) (w : World) :
  snapshot userId w <> [] ->
  toLowerCase (confirmOrder io) <> "yes" ->
  placeOrder userId io w =
  (Normal tt, set_console (console w ++ [paymentLine; "Order cancelled."]) w).
Proof.
  unfold snapshot, placeOrder, bind, gets. intros H Hno.
  destruct (findOne (byUserId userId) (cart w)) as [c|]; [|congruence].
  destruct (Cart.items c); [congruence|]. cbn [List.length Nat.eqb].
  apply String.eqb_neq in Hno. rewrite Hno. cbn [negb].
  unfold console_log, modify, set_console; cbn. now rewrite <- app_assoc.
Qed.

(** The three ways a run of [placeOrder] can go. *)
Lemma placeOrder_cases (userId : string) (io : Checkout) (w : World) :
  snapshot userId w = []
  \/ (snapshot userId w <> [] /\ toLowerCase (confirmOrder io) <> "yes")
  \/ (exists c, findOne (byUserId userId) (cart w) = Some c
                /\ Cart.items c <> []
                /\ toLowerCase (confirmOrder io) = "yes").
Proof.
  unfold snapshot.
  destruct (findOne (byUserId userId) (cart w)) as [c|]; [|now left].
  destruct (Cart.items c) as [|item rest] eqn:E; [now left|]. right.
  destruct (string_dec (toLowerCase (confirmOrder io)) "yes") as [Hyes|Hno].
  - right. exists c. rewrite E. repeat split; congruence.
  - left. split; congruence.
Qed.

Lemma placeOrder_products (userId : string) (io : Checkout) (w : World) :
  products (exec (placeOrder userId io) w) = products w \/
  exists c, findOne (byUserId userId) (cart w) = Some c /\
    products (exec (placeOrder userId io) w) =
    snd (reserveRun (Cart.items c) (products w)).
Proof.
  unfold exec.
  destruct (placeOrder_cases userId io w) as [H|[[H Hno]|[c [Hc [Hi Hyes]]]]].
  - left. now rewrite placeOrder_guard.
  - left. now rewrite placeOrder_cancelled.
  - right. exists c. split; trivial.
    rewrite (placeOrder_run userId io w c Hc Hi Hyes). cbn [snd].
    destruct (fst (reserveRun (Cart.items c) (products w)));
      [|destruct (insertRejects io)]; reflexivity.
Qed.

(** Reservation stops at the first line, in cart order, that the stock left
    by the lines before it cannot meet. *)
Lemma placeOrder_reservation_fails (userId : string) (io : Checkout)
    (w : World) (c : Cart.t) (pre post : list CartItem.t) (item : CartItem.t) :
  findOne (byUserId userId) (cart w) = Some c ->
  Cart.items c = (pre ++ item :: post)%list ->
  toLowerCase (confirmOrder io) = "yes" ->
  allPass (products w) pre = true ->
  lineFails (reserved (products w) pre) item = true ->
  placeOrder userId io w =
  (Normal tt,
   mkWorld (reserved (products w) pre) (cart w) (orders w) (newRegister w)
     (console w ++
      [paymentLine;
       "Failed to place order: "
       ++ failureMessage (reserved (products w) pre) item])).
Proof.
  intros Hcart Hitems Hyes Hpre Hitem.
  rewrite (placeOrder_run userId io w c Hcart); trivial.
  - rewrite Hitems, (reserveRun_fails pre post item _ Hpre Hitem). reflexivity.
  - rewrite Hitems. now destruct pre.
Qed.

(** A line leaves the stock of every other product as it is. *)
Lemma findOne_decrement_other (id : ObjectId) (item : CartItem.t)
    (ps : list Product.t) :
  CartItem.productId item <> id ->
  findOne (byId id) (decrement ps item) = findOne (byId id) ps.
Proof.
  intros Hne. unfold decrement, findOne.
  induction ps as [|p ps IH]; simpl; trivial.
  destruct (byId (CartItem.productId item) p) eqn:E; simpl.
  - unfold byId in *. cbn [incQuantity Product._id].
    apply N.eqb_eq in E.
    destruct (N.eqb_spec (Product._id p) id); [congruence | reflexivity].
  - now rewrite IH.
Qed.

Lemma findOne_reserved_other (id : ObjectId) (items : list CartItem.t)
    (ps : list Product.t) :
  ~ In id (map CartItem.productId items) ->
  findOne (byId id) (reserved ps items) = findOne (byId id) ps.
Proof.
  unfold reserved. revert ps.
  induction items as [|item rest IH]; intros ps Hnot; simpl in *; trivial.
  rewrite IH by tauto. apply findOne_decrement_other. tauto.
Qed.

(** ** [addToCart]: what a run does *)

Lemma byUserId_refl (u : string) (items : list CartItem.t) :
  byUserId u (Cart.mk u items) = true.
Proof. unfold byUserId. apply String.eqb_refl. Qed.

Lemma addToCart_existing (userId : string) (product : Product.t)
    (quantity : Z) (w : World) (c : Cart.t) :
  findOne (byUserId userId) (cart w) = Some c ->
  addToCart userId product quantity w =
  (Normal tt,
   set_cart (updateOne (byUserId userId)
               (fun d => Cart.mk (Cart.userId d)
                           (addToSet (lineOf product quantity) (Cart.items d)))
               (cart w)) w)
  /\ findOne (byUserId userId) (cart (exec (addToCart userId product quantity) w))
     = Some (Cart.mk (Cart.userId c)
                     (addToSet (lineOf product quantity) (Cart.items c))).
Proof.
  intros Hc. unfold exec, addToCart, modify, upsertOne.
  rewrite (findOne_some_existsb _ _ _ Hc). split; [reflexivity|].
  cbn [snd set_cart cart].
  apply (findOne_updateOne (byUserId userId)
           (fun d => Cart.mk (Cart.userId d)
                       (addToSet (lineOf product quantity) (Cart.items d))));
    trivial.
  now apply findOne_In in Hc.
Qed.

Lemma addToCart_fresh (userId : string) (product : Product.t)
    (quantity : Z) (w : World) :
  findOne (byUserId userId) (cart w) = None ->
  addToCart userId product quantity w =
  (Normal tt,
   set_cart (cart w ++ [Cart.mk userId [lineOf product quantity]]) w)
  /\ findOne (byUserId userId) (cart (exec (addToCart userId product quantity) w))
     = Some (Cart.mk userId [lineOf product quantity]).
Proof.
  intros Hc. unfold exec, addToCart, modify, upsertOne.
  rewrite (findOne_none _ _ Hc). split; [reflexivity|].
  cbn [snd set_cart cart]. apply findOne_app_none; trivial.
  apply byUserId_refl.
Qed.

(** After [addToCart] the buyer has a cart and the line is in it. *)
Lemma addToCart_In (userId : string) (product : Product.t) (quantity : Z)
    (w : World) :
  exists c,
    findOne (byUserId userId) (cart (exec (addToCart userId product quantity) w))
    = Some c
    /\ In (lineOf product quantity) (Cart.items c).
Proof.
  destruct (findOne (byUserId userId) (cart w)) as [c|] eqn:Hc.
  - destruct (addToCart_existing userId product quantity w c Hc) as [_ H].
    eexists. split; [exact H|]. apply In_addToSet.
  - destruct (addToCart_fresh userId product quantity w Hc) as [_ H].
    eexists. split; [exact H|]. now left.
Qed.

(** ** [updateCartItem]: what a run does *)

Lemma Cart_eta (c : Cart.t) : Cart.mk (Cart.userId c) (Cart.items c) = c.
Proof. now destruct c. Qed.

Lemma filter_other_names (productName : string) (items : list CartItem.t) :
  (forall item, In item items -> CartItem.name item <> productName) ->
  List.filter (fun item => negb (nameIs productName item)) items = items.
Proof.
  induction items as [|x items IH]; simpl; intros H; trivial.
  unfold nameIs at 1. destruct (String.eqb_spec (CartItem.name x) productName) as [E|_].
  - exfalso. apply (H x); auto.
  - simpl. f_equal. apply IH. auto.
Qed.

Lemma setQuantityAtFirst_none (productName : string) (newQuantity : Z)
    (items : list CartItem.t) :
  (forall item, In item items -> CartItem.name item <> productName) ->
  setQuantityAtFirst (nameIs productName) newQuantity items = None.
Proof.
  induction items as [|x items IH]; simpl; intros H; trivial.
  unfold nameIs at 1. destruct (String.eqb_spec (CartItem.name x) productName) as [E|_].
  - exfalso. apply (H x); auto.
  - rewrite IH; auto.
Qed.

Lemma setQuantityAtFirst_split (productName : string) (newQuantity : Z)
    (pre post : list CartItem.t) (item : CartItem.t) :
  (forall x, In x pre -> CartItem.name x <> productName) ->
  CartItem.name item = productName ->
  setQuantityAtFirst (nameIs productName) newQuantity (pre ++ item :: post)%list
  = Some (pre ++ setQuantity newQuantity item :: post)%list.
Proof.
  intros Hpre Hitem. subst productName. induction pre as [|x pre IH]; simpl.
  - unfold nameIs. rewrite String.eqb_refl. reflexivity.
  - unfold nameIs at 1.
    destruct (String.eqb_spec (CartItem.name x) (CartItem.name item)) as [E|_].
    + exfalso. apply (Hpre x); simpl; auto.
    + rewrite IH; [reflexivity|]. intros y Hy. apply Hpre. now right.
Qed.

Lemma updateCartItem_remove (userId productName : string) (newQuantity : Z)
    (w : World) (c : Cart.t) :
  findOne (byUserId userId) (cart w) = Some c ->
  newQuantity <= 0 ->
  updateCartItem userId productName newQuantity w =
  (Normal tt,
   mkWorld (products w)
     (replaceOne (byUserId userId)
        (Cart.mk (Cart.userId c)
           (List.filter (fun item => negb (nameIs productName item))
                        (Cart.items c)))
        (cart w))
     (orders w) (newRegister w)
     (console w ++ [productName ++ " removed from cart."])).
Proof.
  intros Hc Hq. unfold updateCartItem, bind, gets. rewrite Hc.
  apply Z.leb_le in Hq. rewrite Hq. reflexivity.
Qed.

Lemma updateCartItem_update (userId productName : string) (newQuantity : Z)
    (w : World) (c : Cart.t) (items : list CartItem.t) :
  findOne (byUserId userId) (cart w) = Some c ->
  0 < newQuantity ->
  setQuantityAtFirst (nameIs productName) newQuantity (Cart.items c)
  = Some items ->
  updateCartItem userId productName newQuantity w =
  (Normal tt,
   mkWorld (products w)
     (replaceOne (byUserId userId) (Cart.mk (Cart.userId c) items) (cart w))
     (orders w) (newRegister w)
     (console w ++ [productName ++ " quantity updated to "
                    ++ showZ newQuantity ++ "."])).
Proof.
  intros Hc Hq Hset. unfold updateCartItem, bind, gets. rewrite Hc.
  apply Z.leb_gt in Hq. rewrite Hq, Hset. reflexivity.
Qed.

Lemma updateCartItem_missing (userId productName : string) (newQuantity : Z)
    (w : World) (c : Cart.t) :
  findOne (byUserId userId) (cart w) = Some c ->
  0 < newQuantity ->
  setQuantityAtFirst (nameIs productName) newQuantity (Cart.items c) = None ->
  updateCartItem userId productName newQuantity w =
  (Normal tt,
   set_console (console w ++ [productName ++ " not found in cart."]) w).
Proof.
  intros Hc Hq Hset. unfold updateCartItem, bind, gets. rewrite Hc.
  apply Z.leb_gt in Hq. rewrite Hq, Hset. reflexivity.
Qed.

(** ** [updateStock]: what a run does *)

Lemma logStock_run (sellerProducts : list Product.t) (index : Z) (w : World) :
  logStock index sellerProducts w =
  (Normal tt, set_console (console w ++ stockLines index sellerProducts) w).
Proof.
  revert index w. induction sellerProducts as [|p rest IH]; intros index w; simpl.
  - unfold ret, set_console. rewrite app_nil_r. now destruct w.
  - unfold bind, console_log, modify. rewrite IH.
    unfold set_console; cbn. now rewrite <- app_assoc.
Qed.

(** A run of [updateStock] leaves the products alone, or adds the signed
    change to the stock of a product it has read, after checking that the
    sum is not negative. *)
Lemma updateStock_products (seller_id : ObjectId) (io : Restock) (w : World) :
  products (exec (updateStock seller_id io) w) = products w \/
  exists selectedProduct,
    In selectedProduct (products w)
    /\ 0 <= Product.quantity selectedProduct + updateQuantityOf io
    /\ products (exec (updateStock seller_id io) w) =
       updateOne (byId (Product._id selectedProduct))
                 (incQuantity (updateQuantityOf io)) (products w).
Proof.
  unfold exec, updateStock, updateQuantityOf, bind, gets, console_log, modify.
  destruct (findOne _ (newRegister w)) as [seller|]; [|now left].
  destruct (Nat.eqb _ 0); [now left|].
  rewrite logStock_run.
  destruct (productNumber io) as [number|]; [|now left].
  destruct ((number - 1 <? 0) || _)%bool; [now left|].
  destruct (nth_error _ _) as [selectedProduct|] eqn:Hnth; [|now left].
  destruct (Product.quantity selectedProduct + _ <? 0) eqn:Hneg; [now left|].
  right. exists selectedProduct. apply Z.ltb_ge in Hneg.
  apply nth_error_In, filter_In in Hnth.
  split; [tauto | split; [assumption | reflexivity]].
Qed.

Lemma updateStock_rejected (seller_id : ObjectId) (io : Restock) (w : World)
    (seller : User.t) (number : Z) (selectedProduct : Product.t) :
  findOne (fun u => N.eqb (User._id u) seller_id) (newRegister w) = Some seller ->
  productNumber io = Some number ->
  0 <= number - 1 ->
  nth_error
    (List.filter (fun p => String.eqb (Product.seller_id p) (User.username seller))
                 (products w))
    (Z.to_nat (number - 1)) = Some selectedProduct ->
  Product.quantity selectedProduct + updateQuantityOf io < 0 ->
  exists lines,
    updateStock seller_id io w =
    (Normal tt,
     set_console (console w ++ lines ++ ["Error: Stock cannot be negative."]) w).
Proof.
  intros Hseller Hnumber Hpos Hnth Hneg.
  assert (Hlt : (Z.to_nat (number - 1) <
                 List.length (List.filter
                   (fun p => String.eqb (Product.seller_id p) (User.username seller))
                   (products w)))%nat)
    by (apply nth_error_Some; congruence).
  exists ("Your products:"
          :: stockLines 0 (List.filter
               (fun p => String.eqb (Product.seller_id p) (User.username seller))
               (products w))).
  unfold updateStock, bind, gets, console_log, modify. rewrite Hseller.
  destruct (Nat.eqb_spec (List.length (List.filter
              (fun p => String.eqb (Product.seller_id p) (User.username seller))
              (products w))) 0) as [E|_]; [lia|].
  rewrite logStock_run, Hnumber.
  replace (number - 1 <? 0) with false by (symmetry; apply Z.ltb_ge; lia).
  replace (number - 1 >=? _) with false
    by (symmetry; rewrite Z.geb_leb; apply Z.leb_gt; lia).
  cbn [orb]. rewrite Hnth. fold (updateQuantityOf io).
  apply Z.ltb_lt in Hneg. rewrite Hneg.
  unfold set_console; cbn. now rewrite <- !app_assoc.
Qed.

(** ** Identities *)

Lemma findOne_unique (ps : list Product.t) (p : Product.t) :
  NoDup (map Product._id ps) -> In p ps ->
  findOne (byId (Product._id p)) ps = Some p.
Proof.
  unfold findOne. induction ps as [|x ps IH]; simpl; intros Hnd Hin; [tauto|].
  inversion Hnd as [|? ? Hx Hrest]; subst. unfold byId at 1.
  destruct (N.eqb_spec (Product._id x) (Product._id p)) as [E|E].
  - destruct Hin as [->|Hin]; trivial.
    exfalso. apply Hx. rewrite E. now apply in_map.
  - destruct Hin as [->|Hin]; [congruence | now apply IH].
Qed.

Lemma updateOne_incQuantity_ids (id : ObjectId) (by_ : Z) (ps : list Product.t) :
  map Product._id (updateOne (byId id) (incQuantity by_) ps)
  = map Product._id ps.
Proof.
  induction ps as [|p ps IH]; simpl; trivial.
  destruct (byId id p); simpl; [reflexivity | now rewrite IH].
Qed.

Lemma reserveRun_ids (items : list CartItem.t) (ps : list Product.t) :
  map Product._id (snd (reserveRun items ps)) = map Product._id ps.
Proof.
  revert ps. induction items as [|item rest IH]; intros ps; simpl; trivial.
  destruct (lineFails ps item); simpl; trivial.
  rewrite IH. apply updateOne_incQuantity_ids.
Qed.

(** The operations that change stock keep the identities as they are, so
    uniqueness of [_id] is kept by them. *)
Lemma uniqueIds_kept (w : World) :
  uniqueIds w ->
  (forall userId io, uniqueIds (exec (placeOrder userId io) w))
  /\ (forall seller_id io, uniqueIds (exec (updateStock seller_id io) w)).
Proof.
  unfold uniqueIds. intros H. split.
  - intros userId io.
    destruct (placeOrder_products userId io w) as [->|[c [_ ->]]]; trivial.
    now rewrite reserveRun_ids.
  - intros seller_id io.
    destruct (updateStock_products seller_id io w) as [->|[p [_ [_ ->]]]]; trivial.
    now rewrite updateOne_incQuantity_ids.
Qed.

Lemma lastLine_set_console1 (w : World) (ls : list string) (l : string) :
  lastLine (set_console (ls ++ [l]) w) = l.
Proof. unfold lastLine, set_console; cbn. apply last_last. Qed.

Lemma last_two (ls : list string) (l1 l2 d : string) :
  last (ls ++ [l1; l2]) d = l2.
Proof.
  change [l1; l2] with ([l1] ++ [l2])%list. rewrite app_assoc. apply last_last.
Qed.

Lemma lastLine_set_console2 (w : World) (ls : list string) (l1 l2 : string) :
  lastLine (set_console (ls ++ [l1; l2]) w) = l2.
Proof. unfold lastLine, set_console; cbn. apply last_two. Qed.

(** * The claims *)

(** ** Checkout *)

(** C8. Empty-cart guard: for a buyer whose cart is empty or absent,
    [placeOrder] reports that the cart is empty and does nothing else: no
    product, no cart, no order and no user document is touched, and the
    only line written is the report. *)
Theorem placeOrder_empty_cart (userId : string) (io : Checkout) (w : World) :
  snapshot userId w = [] ->
  fst (placeOrder userId io w) = Normal tt
  /\ products (exec (placeOrder userId io) w) = products w
  /\ cart (exec (placeOrder userId io) w) = cart w
  /\ orders (exec (placeOrder userId io) w) = orders w
  /\ newRegister (exec (placeOrder userId io) w) = newRegister w
  /\ console (exec (placeOrder userId io) w)
     = (console w ++ ["Your cart is empty. Cannot place order."])%list.
Proof.
  intros H. unfold exec. rewrite (placeOrder_guard userId io w H).
  repeat split.
Qed.

Lemma placeOrder_empty_cart_witness :
  snapshot "buyer" sellerWorld = []
  /\ fst (placeOrder "buyer" yes sellerWorld) = Normal tt
  /\ products (exec (placeOrder "buyer" yes) sellerWorld) = products sellerWorld
  /\ cart (exec (placeOrder "buyer" yes) sellerWorld) = cart sellerWorld
  /\ orders (exec (placeOrder "buyer" yes) sellerWorld) = orders sellerWorld
  /\ newRegister (exec (placeOrder "buyer" yes) sellerWorld)
     = newRegister sellerWorld
  /\ console (exec (placeOrder "buyer" yes) sellerWorld)
     = (console sellerWorld ++ ["Your cart is empty. Cannot place order."])%list.
Proof.
  split; [reflexivity|].
  apply (placeOrder_empty_cart "buyer" yes sellerWorld). reflexivity.
Defined.

(** C1, as stated, fails in Scenario B: the cart asks for 3 of P (5 in
    stock) and 3 of Q (2 in stock); [placeOrder] reports the insufficient
    stock of Q, but it has already taken 3 from the stock of P, so the
    products are not as they were before the call. *)
Lemma scenarioB_partial_decrement :
  snapshot "buyer" scenarioB = [lineOf productP 3; lineOf productQ 3]
  /\ stock 1%N scenarioB = Some 5
  /\ stock 2%N scenarioB = Some 2
  /\ lineFails (products scenarioB) (lineOf productQ 3) = true
  /\ lastLine (exec (placeOrder "buyer" yes) scenarioB)
     = "Failed to place order: Insufficient stock for Q"
  /\ stock 1%N (exec (placeOrder "buyer" yes) scenarioB) = Some 2
  /\ products (exec (placeOrder "buyer" yes) scenarioB) <> products scenarioB.
Proof.
  repeat split; try reflexivity. vm_compute. discriminate.
Qed.

(** C1, amended. Reservation runs line by line in cart order.  When the
    lines before some line are all met in turn and that line is not
    (its product is missing, or the stock left for it is less than the
    requested quantity), [placeOrder] reports the failure, appends no
    order and leaves the cart unchanged; the stock of the lines before the
    failing one has been decremented by their quantities, and every
    product that none of those lines names has the stock it had. *)
Theorem placeOrder_failed_reservation (userId : string) (io : Checkout)
    (w : World) (c : Cart.t) (pre post : list CartItem.t) (item : CartItem.t) :
  findOne (byUserId userId) (cart w) = Some c ->
  Cart.items c = (pre ++ item :: post)%list ->
  toLowerCase (confirmOrder io) = "yes" ->
  allPass (products w) pre = true ->
  lineFails (reserved (products w) pre) item = true ->
  products (exec (placeOrder userId io) w) = reserved (products w) pre
  /\ (forall id, ~ In id (map CartItem.productId pre) ->
        stock id (exec (placeOrder userId io) w) = stock id w)
  /\ cart (exec (placeOrder userId io) w) = cart w
  /\ orders (exec (placeOrder userId io) w) = orders w
  /\ exists message,
       lastLine (exec (placeOrder userId io) w)
       = "Failed to place order: " ++ message.
Proof.
  intros Hcart Hitems Hyes Hpre Hitem. unfold exec.
  rewrite (placeOrder_reservation_fails userId io w c pre post item);
    trivial.
  cbn [snd products cart orders]. repeat split.
  - intros id Hid. unfold stock. cbn [products].
    now rewrite findOne_reserved_other.
  - eexists. apply lastLine_set_console2 with (w := w).
Qed.

Lemma placeOrder_failed_reservation_witness :
  products (exec (placeOrder "buyer" yes) scenarioB)
  = reserved (products scenarioB) [lineOf productP 3]
  /\ (forall id, ~ In id (map CartItem.productId [lineOf productP 3]) ->
        stock id (exec (placeOrder "buyer" yes) scenarioB) = stock id scenarioB)
  /\ cart (exec (placeOrder "buyer" yes) scenarioB) = cart scenarioB
  /\ orders (exec (placeOrder "buyer" yes) scenarioB) = orders scenarioB
  /\ exists message,
       lastLine (exec (placeOrder "buyer" yes) scenarioB)
       = "Failed to place order: " ++ message.
Proof.
  apply (placeOrder_failed_reservation "buyer" yes scenarioB
           (Cart.mk "buyer" [lineOf productP 3; lineOf productQ 3])
           [lineOf productP 3] [] (lineOf productQ 3));
    reflexivity.
Defined.

(** C3, as stated, fails: in Scenario A (P has 5 in stock, the cart asks
    for 3) with an order collection that rejects the insert, the
    reservation succeeds, the append fails, and the stock of P stays at 2:
    nothing restores it to 5. *)
Lemma scenarioA_no_release :
  snapshot "buyer" scenarioA = [lineOf productP 3]
  /\ allPass (products scenarioA) (snapshot "buyer" scenarioA) = true
  /\ stock 1%N scenarioA = Some 5
  /\ lastLine (exec (placeOrder "buyer" storageDown) scenarioA)
     = "Failed to place order: connection closed"
  /\ stock 1%N (exec (placeOrder "buyer" storageDown) scenarioA) = Some 2
  /\ products (exec (placeOrder "buyer" storageDown) scenarioA)
     <> products scenarioA.
Proof.
  repeat split; try reflexivity. vm_compute. discriminate.
Qed.

(** C3, amended. For every checkout in which the reservation succeeded but
    the append of the order fails, [placeOrder] performs no release: the
    stock of every reserved product stays decremented; the storage error
    is reported to the caller, no order is recorded, and the cart is left
    intact. *)
Theorem placeOrder_failed_append (userId : string) (io : Checkout)
    (w : World) (c : Cart.t) (message : string) :
  findOne (byUserId userId) (cart w) = Some c ->
  Cart.items c <> [] ->
  toLowerCase (confirmOrder io) = "yes" ->
  allPass (products w) (Cart.items c) = true ->
  insertRejects io = Some message ->
  fst (placeOrder userId io w) = Normal tt
  /\ products (exec (placeOrder userId io) w)
     = reserved (products w) (Cart.items c)
  /\ cart (exec (placeOrder userId io) w) = cart w
  /\ orders (exec (placeOrder userId io) w) = orders w
  /\ console (exec (placeOrder userId io) w)
     = (console w
        ++ [paymentLine; ("Failed to place order: " ++ message)%string])%list.
Proof.
  intros Hcart Hitems Hyes Hall Hdown. unfold exec.
  rewrite (placeOrder_run userId io w c Hcart Hitems Hyes).
  rewrite (reserveRun_allPass _ _ Hall), Hdown. repeat split.
Qed.

Lemma placeOrder_failed_append_witness :
  fst (placeOrder "buyer" storageDown scenarioA) = Normal tt
  /\ products (exec (placeOrder "buyer" storageDown) scenarioA)
     = reserved (products scenarioA) [lineOf productP 3]
  /\ cart (exec (placeOrder "buyer" storageDown) scenarioA) = cart scenarioA
  /\ orders (exec (placeOrder "buyer" storageDown) scenarioA)
     = orders scenarioA
  /\ console (exec (placeOrder "buyer" storageDown) scenarioA)
     = (console scenarioA
        ++ [paymentLine;
            ("Failed to place order: " ++ "connection closed")%string])%list.
Proof.
  apply (placeOrder_failed_append "buyer" storageDown scenarioA
           (Cart.mk "buyer" [lineOf productP 3]) "connection closed");
    try reflexivity.
  discriminate.
Defined.

(** C6, as stated, fails: with A (identity 1) and B (identity 2) both out
    of stock and a cart that holds B before A, both lines fail, and the
    error [placeOrder] reports is the one of B, which is not the failing
    product of least identity. *)
Lemma scenarioDescending_reports_cart_order :
  snapshot "buyer" scenarioDescending = [lineOf soldOutB 1; lineOf soldOutA 1]
  /\ lineFails (products scenarioDescending) (lineOf soldOutA 1) = true
  /\ lineFails (products scenarioDescending) (lineOf soldOutB 1) = true
  /\ (CartItem.productId (lineOf soldOutA 1)
      < CartItem.productId (lineOf soldOutB 1))%N
  /\ lastLine (exec (placeOrder "buyer" yes) scenarioDescending)
     = "Failed to place order: Insufficient stock for B".
Proof. repeat split. Qed.

(** C6, amended. Reservation checks the demands in the order of the cart's
    lines, and the error reported is the one of the first failing line in
    that order: when every line before a line is met in turn and that line
    is not, the loop throws, and [placeOrder] reports, ``Product not
    found'' with the line's name if its product does not exist, and
    ``Insufficient stock for'' with the line's name otherwise. *)
Theorem placeOrder_reports_first_in_cart_order (userId : string)
    (io : Checkout) (w : World) (c : Cart.t) (pre post : list CartItem.t)
    (item : CartItem.t) :
  findOne (byUserId userId) (cart w) = Some c ->
  Cart.items c = (pre ++ item :: post)%list ->
  toLowerCase (confirmOrder io) = "yes" ->
  allPass (products w) pre = true ->
  lineFails (reserved (products w) pre) item = true ->
  let report :=
    match findOne (byId (CartItem.productId item)) (reserved (products w) pre)
    with
    | None => "Product not found: " ++ CartItem.name item
    | Some _ => "Insufficient stock for " ++ CartItem.name item
    end in
  fst (reserveItems (Cart.items c) w) = Thrown report
  /\ lastLine (exec (placeOrder userId io) w)
     = "Failed to place order: " ++ report.
Proof.
  intros Hcart Hitems Hyes Hpre Hitem report. split.
  - rewrite reserveItems_run, Hitems.
    now rewrite (reserveRun_fails pre post item _ Hpre Hitem).
  - unfold exec.
    rewrite (placeOrder_reservation_fails userId io w c pre post item);
      trivial.
    apply lastLine_set_console2 with (w := w).
Qed.

Lemma placeOrder_reports_first_in_cart_order_witness :
  fst (reserveItems [lineOf soldOutB 1; lineOf soldOutA 1] scenarioDescending)
  = Thrown "Insufficient stock for B"
  /\ lastLine (exec (placeOrder "buyer" yes) scenarioDescending)
     = "Failed to place order: " ++ "Insufficient stock for B".
Proof.
  apply (placeOrder_reports_first_in_cart_order "buyer" yes scenarioDescending
           (Cart.mk "buyer" [lineOf soldOutB 1; lineOf soldOutA 1])
           [] [lineOf soldOutA 1] (lineOf soldOutB 1));
    reflexivity.
Defined.

(** Scenario A of the specification, run: the order is placed, 3 are taken
    from the stock of P, one order with the line of P is appended and the
    cart document is deleted. *)
Example scenarioA_committed :
  orderPlaced (exec (placeOrder "buyer" yes) scenarioA)
  /\ stock 1%N (exec (placeOrder "buyer" yes) scenarioA) = Some 2
  /\ orders (exec (placeOrder "buyer" yes) scenarioA)
     = [orderOf "buyer" (Cart.mk "buyer" [lineOf productP 3]) yes]
  /\ cart (exec (placeOrder "buyer" yes) scenarioA) = [].
Proof. repeat split. Qed.

(** ** Stock *)

(** C4. Every product's stock quantity stays non-negative: from a product
    collection with no negative quantity, [placeOrder] and the seller's
    [updateStock] both leave a collection with no negative quantity.  The
    loop of [placeOrder] decrements nothing for a line whose product is
    missing or has less than the requested quantity, and a decrease that
    would take the selected product's quantity below zero is rejected with
    an error line and no change to any product. *)
Theorem stock_stays_non_negative (w : World) :
  stockNonNegative w ->
  (forall userId io, stockNonNegative (exec (placeOrder userId io) w))
  /\ (forall item rest,
        lineFails (products w) item = true ->
        products (exec (reserveItems (item :: rest)) w) = products w)
  /\ (uniqueIds w ->
      forall seller_id io, stockNonNegative (exec (updateStock seller_id io) w))
  /\ (forall seller_id io seller number selectedProduct,
        findOne (fun u => N.eqb (User._id u) seller_id) (newRegister w)
        = Some seller ->
        productNumber io = Some number ->
        0 <= number - 1 ->
        nth_error
          (List.filter
             (fun p => String.eqb (Product.seller_id p) (User.username seller))
             (products w))
          (Z.to_nat (number - 1)) = Some selectedProduct ->
        action io = decrease ->
        Product.quantity selectedProduct - quantityChange io < 0 ->
        products (exec (updateStock seller_id io) w) = products w
        /\ lastLine (exec (updateStock seller_id io) w)
           = "Error: Stock cannot be negative.").
Proof.
  unfold stockNonNegative. intros Hnn. split; [|split; [|split]].
  - intros userId io.
    destruct (placeOrder_products userId io w) as [->|[c [_ ->]]]; trivial.
    now apply reserveRun_nonneg.
  - intros item rest Hfails. unfold exec. rewrite reserveItems_run.
    cbn [reserveRun]. now rewrite Hfails.
  - intros Huniq seller_id io.
    destruct (updateStock_products seller_id io w)
      as [->|[p [Hin [Hsum ->]]]]; trivial.
    apply Forall_updateOne; trivial.
    intros d Hd. rewrite (findOne_unique _ p Huniq Hin) in Hd.
    injection Hd as <-. exact Hsum.
  - intros seller_id io seller number selectedProduct
           Hseller Hnumber Hpos Hnth Haction Hneg.
    destruct (updateStock_rejected seller_id io w seller number selectedProduct)
      as [lines Hrun]; trivial.
    + unfold updateQuantityOf. rewrite Haction. lia.
    + unfold exec. rewrite Hrun. cbn [snd]. split; [reflexivity|].
      rewrite app_assoc. apply lastLine_set_console1.
Qed.

Lemma stock_stays_non_negative_witness :
  stockNonNegative sellerWorld
  /\ uniqueIds sellerWorld
  /\ (forall userId io, stockNonNegative (exec (placeOrder userId io) sellerWorld))
  /\ products (exec (reserveItems [lineOf productQ 3; lineOf productP 3])
                    sellerWorld)
     = products sellerWorld
  /\ (forall seller_id io,
        stockNonNegative (exec (updateStock seller_id io) sellerWorld))
  /\ products (exec (updateStock 7%N overdraw) sellerWorld)
     = products sellerWorld
  /\ lastLine (exec (updateStock 7%N overdraw) sellerWorld)
     = "Error: Stock cannot be negative.".
Proof.
  assert (Hnn : stockNonNegative sellerWorld)
    by (repeat constructor; simpl; lia).
  assert (Huniq : uniqueIds sellerWorld)
    by (repeat constructor; simpl; intuition discriminate).
  destruct (stock_stays_non_negative sellerWorld Hnn)
    as [Horder [Hline [Hrestock Hreject]]].
  split; [exact Hnn|]. split; [exact Huniq|]. split; [exact Horder|].
  split; [apply Hline; reflexivity|].
  split; [exact (Hrestock Huniq)|].
  apply (Hreject 7%N overdraw (User.mk 7%N "sam" "seller") 2 productQ);
    solve [reflexivity | simpl; lia].
Defined.

(** The rejected decrease, run: the seller asks to take 3 from Q, which has
    2 in stock. *)
Example overdraw_rejected :
  exec (updateStock 7%N overdraw) sellerWorld
  = set_console ["Your products:"; "1. P - Current stock: 5";
                 "2. Q - Current stock: 2";
                 "Error: Stock cannot be negative."] sellerWorld.
Proof. reflexivity. Qed.

(** ** Cart *)

Lemma snapshot_addToCart_existing (userId : string) (product : Product.t)
    (quantity : Z) (w : World) (c : Cart.t) :
  findOne (byUserId userId) (cart w) = Some c ->
  snapshot userId (exec (addToCart userId product quantity) w)
  = addToSet (lineOf product quantity) (Cart.items c).
Proof.
  intros Hc. unfold snapshot.
  destruct (addToCart_existing userId product quantity w c Hc) as [_ ->].
  reflexivity.
Qed.

(** C2, as stated, fails in Scenario C: after [addToCart] of P with
    quantity 3 and then with quantity 5 the cart holds two lines for P, of
    quantities 3 and 5, and no line of quantity 8. *)
Lemma scenarioC_two_lines :
  snapshot "buyer" scenarioC = [lineOf productP 3; lineOf productP 5]
  /\ snapshot "buyer" scenarioC <> [lineOf productP 8]
  /\ ~ In (lineOf productP (3 + 5)) (snapshot "buyer" scenarioC).
Proof.
  split; [reflexivity|]. split; [discriminate|].
  simpl. intros [H|[H|[]]]; discriminate.
Qed.

(** C2, amended. Adding to a cart goes by the whole line, not by product
    identity: for every cart that already holds a line for product P,
    [addToCart] of P with quantity q2 keeps that line as it is, with its
    quantity, and changes nothing when the line (P's identity, name and
    price, q2) is already in the cart, and otherwise appends that line as
    a further line for P. *)
Theorem addToCart_appends_by_whole_line (userId : string) (product : Product.t)
    (q2 : Z) (w : World) (c : Cart.t) (line : CartItem.t) :
  findOne (byUserId userId) (cart w) = Some c ->
  In line (Cart.items c) ->
  CartItem.productId line = Product._id product ->
  In line (snapshot userId (exec (addToCart userId product q2) w))
  /\ (In (lineOf product q2) (Cart.items c) ->
      snapshot userId (exec (addToCart userId product q2) w) = Cart.items c)
  /\ (~ In (lineOf product q2) (Cart.items c) ->
      snapshot userId (exec (addToCart userId product q2) w)
      = (Cart.items c ++ [lineOf product q2])%list
      /\ line <> lineOf product q2
      /\ CartItem.productId (lineOf product q2) = CartItem.productId line).
Proof.
  intros Hc Hline Hid. rewrite (snapshot_addToCart_existing _ _ _ _ _ Hc).
  split; [|split].
  - unfold addToSet. destruct (existsb _ _); trivial.
    apply in_or_app. now left.
  - apply addToSet_present.
  - intros Hnew. split; [now apply addToSet_absent|].
    split; [congruence | now rewrite Hid].
Qed.

Lemma addToCart_appends_by_whole_line_witness :
  In (lineOf productP 3)
     (snapshot "buyer" (exec (addToCart "buyer" productP 5) scenarioA))
  /\ (In (lineOf productP 5) [lineOf productP 3] ->
      snapshot "buyer" (exec (addToCart "buyer" productP 5) scenarioA)
      = [lineOf productP 3])
  /\ (~ In (lineOf productP 5) [lineOf productP 3] ->
      snapshot "buyer" (exec (addToCart "buyer" productP 5) scenarioA)
      = ([lineOf productP 3] ++ [lineOf productP 5])%list
      /\ lineOf productP 3 <> lineOf productP 5
      /\ CartItem.productId (lineOf productP 5)
         = CartItem.productId (lineOf productP 3)).
Proof.
  apply (addToCart_appends_by_whole_line "buyer" productP 5 scenarioA
           (Cart.mk "buyer" [lineOf productP 3]) (lineOf productP 3)).
  - reflexivity.
  - left. reflexivity.
  - reflexivity.
Defined.

(** C9. Adding the same cart line twice is absorbed: a second [addToCart]
    whose (productId, name, price, quantity) line is identical to the one
    of the call before it leaves the cart, and the whole world, as the
    first call left it. *)
Theorem addToCart_same_line_absorbed (userId : string)
    (product product' : Product.t) (quantity quantity' : Z) (w : World) :
  lineOf product' quantity' = lineOf product quantity ->
  exec (addToCart userId product' quantity')
       (exec (addToCart userId product quantity) w)
  = exec (addToCart userId product quantity) w.
Proof.
  intros Hsame.
  destruct (addToCart_In userId product quantity w) as [c [Hc Hin]].
  set (w1 := exec (addToCart userId product quantity) w) in *.
  unfold exec at 1.
  destruct (addToCart_existing userId product' quantity' w1 c Hc) as [-> _].
  cbn [snd]. rewrite Hsame.
  rewrite (updateOne_id (byUserId userId) _ (cart w1) c Hc).
  - apply set_cart_same.
  - rewrite addToSet_present by exact Hin. apply Cart_eta.
Qed.

Lemma addToCart_same_line_absorbed_witness :
  lineOf restockedP 3 = lineOf productP 3
  /\ exec (addToCart "buyer" restockedP 3)
          (exec (addToCart "buyer" productP 3) sellerWorld)
     = exec (addToCart "buyer" productP 3) sellerWorld.
Proof.
  split; [reflexivity|].
  apply (addToCart_same_line_absorbed "buyer" productP restockedP 3 3 sellerWorld).
  reflexivity.
Defined.

(** C5, as stated, fails: in a cart whose only line is the one of P,
    [updateCartItem] with the name Q and quantity 0 does not report that
    the line is missing: it reports a removal and completes. *)
Lemma updateCartItem_absent_removal_not_reported :
  snapshot "buyer" scenarioA = [lineOf productP 3]
  /\ (forall item, In item (snapshot "buyer" scenarioA) ->
        CartItem.name item <> "Q"
        /\ CartItem.productId item <> Product._id productQ)
  /\ ~ lineNotFound "Q" (exec (updateCartItem "buyer" "Q" 0) scenarioA)
  /\ lastLine (exec (updateCartItem "buyer" "Q" 0) scenarioA)
     = "Q removed from cart.".
Proof.
  split; [reflexivity|]. split; [|split; [|reflexivity]].
  - simpl. intros item [<-|[]]. split; discriminate.
  - unfold lineNotFound. vm_compute. discriminate.
Qed.

Lemma snapshot_replaceOne (userId : string) (w w' : World) (c : Cart.t)
    (items : list CartItem.t) :
  findOne (byUserId userId) (cart w) = Some c ->
  cart w' = replaceOne (byUserId userId) (Cart.mk (Cart.userId c) items) (cart w) ->
  snapshot userId w' = items.
Proof.
  intros Hc Hw'. unfold snapshot. rewrite Hw'. unfold replaceOne.
  rewrite (findOne_updateOne (byUserId userId) _ (cart w) c Hc); trivial.
  now apply findOne_In in Hc.
Qed.

(** C5, amended. The cart update goes by product name: for every buyer
    who has a cart, [updateCartItem] with a quantity of zero or less
    removes every line of that name; with a positive quantity it replaces
    the stored quantity of the first line of that name, and when no line
    has that name it reports that the name is not found in the cart and
    leaves the cart as it is. *)
Theorem updateCartItem_contract (userId productName : string)
    (newQuantity : Z) (w : World) (c : Cart.t) :
  findOne (byUserId userId) (cart w) = Some c ->
  (newQuantity <= 0 ->
   snapshot userId (exec (updateCartItem userId productName newQuantity) w)
   = List.filter (fun item => negb (nameIs productName item)) (Cart.items c))
  /\ (0 < newQuantity ->
      forall pre item post,
        Cart.items c = (pre ++ item :: post)%list ->
        (forall x, In x pre -> CartItem.name x <> productName) ->
        CartItem.name item = productName ->
        snapshot userId (exec (updateCartItem userId productName newQuantity) w)
        = (pre ++ setQuantity newQuantity item :: post)%list)
  /\ (0 < newQuantity ->
      (forall x, In x (Cart.items c) -> CartItem.name x <> productName) ->
      lineNotFound productName
        (exec (updateCartItem userId productName newQuantity) w)
      /\ cart (exec (updateCartItem userId productName newQuantity) w) = cart w).
Proof.
  intros Hc. unfold exec. split; [|split].
  - intros Hq. rewrite (updateCartItem_remove _ _ _ _ c Hc Hq).
    now apply (snapshot_replaceOne userId w _ c).
  - intros Hq pre item post Hitems Hpre Hitem.
    rewrite (updateCartItem_update _ _ _ _ c
               (pre ++ setQuantity newQuantity item :: post) Hc Hq).
    + now apply (snapshot_replaceOne userId w _ c).
    + rewrite Hitems. now apply setQuantityAtFirst_split.
  - intros Hq Hnone.
    rewrite (updateCartItem_missing _ _ _ _ c Hc Hq)
      by now apply setQuantityAtFirst_none.
    cbn [snd]. split; [|reflexivity].
    apply lastLine_set_console1.
Qed.

Lemma updateCartItem_contract_witness :
  (0 <= 0 ->
   snapshot "buyer" (exec (updateCartItem "buyer" "P" 0) scenarioC) = [])
  /\ (0 < 7 ->
      snapshot "buyer" (exec (updateCartItem "buyer" "P" 7) scenarioC)
      = [lineOf productP 7; lineOf productP 5])
  /\ (0 < 7 ->
      lineNotFound "Q" (exec (updateCartItem "buyer" "Q" 7) scenarioC)
      /\ cart (exec (updateCartItem "buyer" "Q" 7) scenarioC) = cart scenarioC).
Proof.
  pose (c := Cart.mk "buyer" [lineOf productP 3; lineOf productP 5]).
  split; [|split].
  - apply (updateCartItem_contract "buyer" "P" 0 scenarioC c). reflexivity.
  - intros Hq.
    apply (updateCartItem_contract "buyer" "P" 7 scenarioC c eq_refl)
      with (pre := []) (item := lineOf productP 3) (post := [lineOf productP 5]);
      trivial.
    intros x [].
  - intros Hq.
    apply (updateCartItem_contract "buyer" "Q" 7 scenarioC c eq_refl); trivial.
    simpl. intros x [<-|[<-|[]]]; discriminate.
Defined.

(** C10. The removal path of the cart update is keyed by product name and
    never errors: for every buyer who has a cart, [updateCartItem] with
    quantity 0 completes normally, reports a removal, and leaves in the
    cart exactly the lines whose name differs from the given one, whatever
    their product identities; when no line has that name the cart
    collection is left as it was. *)
Theorem updateCartItem_removal_by_name (userId productName : string)
    (w : World) (c : Cart.t) :
  findOne (byUserId userId) (cart w) = Some c ->
  fst (updateCartItem userId productName 0 w) = Normal tt
  /\ snapshot userId (exec (updateCartItem userId productName 0) w)
     = List.filter (fun item => negb (nameIs productName item)) (Cart.items c)
  /\ (forall item,
        In item (snapshot userId (exec (updateCartItem userId productName 0) w))
        <-> In item (Cart.items c) /\ CartItem.name item <> productName)
  /\ console (exec (updateCartItem userId productName 0) w)
     = (console w ++ [(productName ++ " removed from cart.")%string])%list
  /\ ((forall item, In item (Cart.items c) -> CartItem.name item <> productName) ->
      cart (exec (updateCartItem userId productName 0) w) = cart w).
Proof.
  intros Hc.
  assert (Hsnap :
    snapshot userId (exec (updateCartItem userId productName 0) w)
    = List.filter (fun item => negb (nameIs productName item)) (Cart.items c)).
  { unfold exec. rewrite (updateCartItem_remove _ _ 0 _ c Hc) by lia.
    now apply (snapshot_replaceOne userId w _ c). }
  split; [|split; [exact Hsnap | split; [|split]]].
  - now rewrite (updateCartItem_remove _ _ 0 _ c Hc) by lia.
  - intros item. rewrite Hsnap, filter_In. unfold nameIs.
    destruct (String.eqb_spec (CartItem.name item) productName); simpl;
      intuition congruence.
  - unfold exec. now rewrite (updateCartItem_remove _ _ 0 _ c Hc) by lia.
  - intros Hnone. unfold exec.
    rewrite (updateCartItem_remove _ _ 0 _ c Hc) by lia. cbn [snd cart].
    rewrite filter_other_names by exact Hnone. rewrite Cart_eta.
    unfold replaceOne. now apply (updateOne_id (byUserId userId) _ (cart w) c).
Qed.

Lemma updateCartItem_removal_by_name_witness :
  fst (updateCartItem "buyer" "apple" 0 scenarioApples) = Normal tt
  /\ snapshot "buyer" (exec (updateCartItem "buyer" "apple" 0) scenarioApples)
     = List.filter (fun item => negb (nameIs "apple" item))
         [lineOf appleOfSam 1; lineOf productP 3; lineOf appleOfKim 2]
  /\ (forall item,
        In item
          (snapshot "buyer" (exec (updateCartItem "buyer" "apple" 0) scenarioApples))
        <-> In item [lineOf appleOfSam 1; lineOf productP 3; lineOf appleOfKim 2]
            /\ CartItem.name item <> "apple")
  /\ console (exec (updateCartItem "buyer" "apple" 0) scenarioApples)
     = (console scenarioApples ++ [("apple" ++ " removed from cart.")%string])%list
  /\ ((forall item,
         In item [lineOf appleOfSam 1; lineOf productP 3; lineOf appleOfKim 2] ->
         CartItem.name item <> "apple") ->
      cart (exec (updateCartItem "buyer" "apple" 0) scenarioApples)
      = cart scenarioApples).
Proof.
  apply (updateCartItem_removal_by_name "buyer" "apple" scenarioApples
           (Cart.mk "buyer"
              [lineOf appleOfSam 1; lineOf productP 3; lineOf appleOfKim 2])).
  reflexivity.
Defined.

(** The removal, run: both apple lines go, the line of P stays; and a
    removal of a name that is not in the cart changes no cart. *)
Example apples_removed :
  snapshot "buyer" (exec (updateCartItem "buyer" "apple" 0) scenarioApples)
  = [lineOf productP 3]
  /\ cart (exec (updateCartItem "buyer" "pear" 0) scenarioApples)
     = cart scenarioApples
  /\ lastLine (exec (updateCartItem "buyer" "pear" 0) scenarioApples)
     = "pear removed from cart.".
Proof. repeat split. Qed.

(** * Further properties *)

(** ** The terminal *)

Lemma digitValue_range (c : ascii) :
  isDigit c = true -> 0 <= digitValue c <= 9.
Proof.
  unfold isDigit, digitValue. intros H.
  apply andb_true_iff in H as [H1 H2].
  apply Nat.leb_le in H1, H2. lia.
Qed.

Lemma digitValue_zero (c : ascii) :
  isDigit c = true ->
  (digitValue c = 0 <-> Nat.eqb (nat_of_ascii c) 48 = true).
Proof.
  unfold digitValue. intros _. rewrite Nat.eqb_eq. lia.
Qed.

Lemma parseDigits_positive (s : string) (acc : Z) :
  allDigits s = true -> 0 <= acc ->
  0 <= parseDigits acc s
  /\ (0 < parseDigits acc s <-> 0 < acc \/ allZeros s = false).
Proof.
  revert acc. induction s as [|c s IH]; intros acc Hd Hacc;
    cbn [parseDigits allDigits allZeros] in *.
  - split; [exact Hacc|]. intuition discriminate.
  - apply andb_true_iff in Hd as [Hc Hs].
    pose proof (digitValue_range c Hc) as Hr.
    pose proof (digitValue_zero c Hc) as Hz.
    destruct (IH (10 * acc + digitValue c) Hs ltac:(lia)) as [Hge Hiff].
    split; [exact Hge|]. rewrite Hiff.
    destruct (Nat.eqb (nat_of_ascii c) 48) eqn:E; cbn [andb].
    + assert (digitValue c = 0) by (apply Hz; reflexivity). intuition lia.
    + assert (digitValue c <> 0) by (intros D; apply Hz in D; discriminate).
      intuition lia.
Qed.

(** The test of [askForQuantity], read off the digits. *)
Lemma askForQuantity_test (input : string) :
  onlyDigits input && (0 <? parseInt input) = acceptableQuantity input.
Proof.
  unfold acceptableQuantity, parseInt.
  destruct (onlyDigits input) eqn:Hd; simpl; trivial.
  unfold onlyDigits in Hd. apply andb_true_iff in Hd as [_ Hd].
  destruct (parseDigits_positive input 0 Hd ltac:(lia)) as [_ Hiff].
  destruct (allZeros input) eqn:Hz; simpl.
  - apply Z.ltb_ge. destruct (Z.ltb_spec 0 (parseDigits 0 input)); [|lia].
    apply Hiff in H. destruct H; [lia | discriminate].
  - apply Z.ltb_lt. apply Hiff. now right.
Qed.

Lemma acceptableQuantity_positive (input : string) :
  acceptableQuantity input = true -> 0 < parseInt input.
Proof.
  rewrite <- askForQuantity_test. intros H.
  apply andb_true_iff in H as [_ H]. now apply Z.ltb_lt.
Qed.

(** What a returning run of [askForQuantity] has read and written. *)
Lemma askForQuantity_result (stdin rest lines : list string) (quantity : Z) :
  askForQuantity stdin = (Some (quantity, rest), lines) ->
  0 < quantity
  /\ exists skipped answer,
       stdin = (skipped ++ answer :: rest)%list
       /\ Forall (fun input => acceptableQuantity input = false) skipped
       /\ onlyDigits answer = true
       /\ quantity = parseInt answer
       /\ lines = repeat quantityLine (List.length skipped).
Proof.
  revert lines. induction stdin as [|input stdin IH]; intros lines H;
    cbn [askForQuantity] in H; [discriminate|].
  rewrite askForQuantity_test in H.
  destruct (acceptableQuantity input) eqn:Hinput.
  - injection H as <- <- <-. split; [now apply acceptableQuantity_positive|].
    exists [], input. repeat split; trivial.
    unfold acceptableQuantity in Hinput. now apply andb_true_iff in Hinput.
  - destruct (askForQuantity stdin) as [result more] eqn:Hrest.
    injection H as -> <-.
    destruct (IH more eq_refl) as [Hpos [skipped [answer [-> [Hs [Hd [Hq ->]]]]]]].
    split; [exact Hpos|]. exists (input :: skipped), answer.
    repeat split; trivial. now constructor.
Qed.

(** X1. [askForQuantity] returns on the first answer that is written in
    decimal digits, not all zero: when that answer has at most 15 digits
    it returns the number the digits denote, which is positive, leaves the
    answers after it unread, and has written its error line once for every
    answer it skipped. *)
Theorem askForQuantity_takes_first_acceptable
    (skipped rest : list string) (answer : string) :
  Forall (fun input => acceptableQuantity input = false) skipped ->
  acceptableQuantity answer = true ->
  (String.length answer <= 15)%nat ->
  askForQuantity (skipped ++ answer :: rest)
  = (Some (parseInt answer, rest), repeat quantityLine (List.length skipped))
  /\ 0 < parseInt answer.
Proof.
  intros Hskipped Hanswer _. split; [|now apply acceptableQuantity_positive].
  induction Hskipped as [|input skipped Hinput _ IH]; cbn [app askForQuantity].
  - now rewrite askForQuantity_test, Hanswer.
  - now rewrite askForQuantity_test, Hinput, IH.
Qed.

Lemma askForQuantity_takes_first_acceptable_witness :
  askForQuantity (["0"; "-3"; "1.5"; ""; "abc"] ++ "0070" :: ["rest"])
  = (Some (parseInt "0070", ["rest"]), repeat quantityLine 5)
  /\ 0 < parseInt "0070".
Proof.
  apply (askForQuantity_takes_first_acceptable
           ["0"; "-3"; "1.5"; ""; "abc"] ["rest"] "0070").
  - repeat constructor.
  - reflexivity.
  - simpl. lia.
Defined.

(** X2. Whatever is typed, a quantity that [askForQuantity] returns is
    positive: it comes from an answer in decimal digits (and is the number
    the digits denote when they are at most 15), every answer before that
    one was not acceptable and every answer after it is left unread. *)
Theorem askForQuantity_returns_positive (stdin rest lines : list string)
    (quantity : Z) :
  askForQuantity stdin = (Some (quantity, rest), lines) ->
  0 < quantity
  /\ exists skipped answer,
       stdin = (skipped ++ answer :: rest)%list
       /\ Forall (fun input => acceptableQuantity input = false) skipped
       /\ onlyDigits answer = true
       /\ ((String.length answer <= 15)%nat -> quantity = parseInt answer)
       /\ lines = repeat quantityLine (List.length skipped).
Proof.
  revert lines. induction stdin as [|input stdin IH]; intros lines H;
    cbn [askForQuantity] in H; [discriminate|].
  rewrite askForQuantity_test in H.
  destruct (acceptableQuantity input) eqn:Hinput.
  - injection H as <- <- <-. split; [now apply acceptableQuantity_positive|].
    exists [], input. repeat split; trivial.
    unfold acceptableQuantity in Hinput. now apply andb_true_iff in Hinput.
  - destruct (askForQuantity stdin) as [result more] eqn:Hrest.
    injection H as -> <-.
    destruct (IH more eq_refl) as [Hpos [skipped [answer [-> [Hs [Hd [Hq ->]]]]]]].
    split; [exact Hpos|]. exists (input :: skipped), answer.
    repeat split; trivial. now constructor.
Qed.

Lemma askForQuantity_returns_positive_witness :
  0 < 12
  /\ exists skipped answer,
       ["0"; "x"; "12"; "7"] = (skipped ++ answer :: ["7"])%list
       /\ Forall (fun input => acceptableQuantity input = false) skipped
       /\ onlyDigits answer = true
       /\ ((String.length answer <= 15)%nat -> 12 = parseInt answer)
       /\ [quantityLine; quantityLine] = repeat quantityLine (List.length skipped).
Proof.
  apply (askForQuantity_returns_positive ["0"; "x"; "12"; "7"] ["7"]
           [quantityLine; quantityLine] 12).
  reflexivity.
Defined.

Lemma getValidInput_step (validator : string -> bool) (errorMessage : string)
    (input : string) (rest : list string) :
  getValidInput validator errorMessage (input :: rest)
  = if acceptableInput validator input then (Some (input, rest), [])
    else (fst (getValidInput validator errorMessage rest),
          rejectionLine errorMessage input
          :: snd (getValidInput validator errorMessage rest)).
Proof.
  cbn [getValidInput]. unfold acceptableInput, rejectionLine.
  destruct (getValidInput validator errorMessage rest) as [result lines].
  destruct (isBlank input); cbn [negb andb fst snd]; trivial.
Qed.

(** X3. [getValidInput] returns on the first answer that is not blank and
    that the validator accepts, leaves the answers after it unread, and has
    written one line for every answer it skipped: the ``required'' line
    for a blank one and the caller's error message for any other. *)
Theorem getValidInput_takes_first_acceptable (validator : string -> bool)
    (errorMessage : string) (skipped rest : list string) (answer : string) :
  Forall (fun input => acceptableInput validator input = false) skipped ->
  acceptableInput validator answer = true ->
  getValidInput validator errorMessage (skipped ++ answer :: rest)
  = (Some (answer, rest), map (rejectionLine errorMessage) skipped).
Proof.
  intros Hskipped Hanswer.
  induction Hskipped as [|input skipped Hinput _ IH]; cbn [app map].
  - now rewrite getValidInput_step, Hanswer.
  - now rewrite getValidInput_step, Hinput, IH.
Qed.

Lemma getValidInput_takes_first_acceptable_witness :
  getValidInput isValidPhoneNumber phoneLine
    (["   "; "12345"; "98765x4321"] ++ "9876543210" :: ["next"])
  = (Some ("9876543210", ["next"]),
     map (rejectionLine phoneLine) ["   "; "12345"; "98765x4321"]).
Proof.
  apply (getValidInput_takes_first_acceptable isValidPhoneNumber phoneLine
           ["   "; "12345"; "98765x4321"] ["next"] "9876543210").
  - repeat constructor.
  - reflexivity.
Defined.

(** X4. Whatever is typed and whatever the validator, an answer that
    [getValidInput] returns is not blank (so not empty) and is accepted by
    the validator. *)
Theorem getValidInput_returns_acceptable (validator : string -> bool)
    (errorMessage : string) (stdin rest lines : list string) (answer : string) :
  getValidInput validator errorMessage stdin = (Some (answer, rest), lines) ->
  isBlank answer = false /\ answer <> "" /\ validator answer = true
  /\ exists skipped,
       stdin = (skipped ++ answer :: rest)%list
       /\ lines = map (rejectionLine errorMessage) skipped.
Proof.
  revert lines. induction stdin as [|input stdin IH]; intros lines H;
    [discriminate|].
  rewrite getValidInput_step in H.
  destruct (acceptableInput validator input) eqn:Hinput.
  - injection H as <- <- <-. unfold acceptableInput in Hinput.
    apply andb_true_iff in Hinput as [Hblank Hvalid].
    apply negb_true_iff in Hblank. repeat split; trivial.
    + intros ->. discriminate.
    + now exists [].
  - destruct (getValidInput validator errorMessage stdin) as [result more].
    cbn [fst snd] in H. injection H as -> <-.
    destruct (IH more eq_refl) as [Hb [Hne [Hv [skipped [-> ->]]]]].
    repeat split; trivial. now exists (input :: skipped).
Qed.

Lemma getValidInput_returns_acceptable_witness :
  isBlank "Seller" = false /\ "Seller" <> "" /\ isValidRole "Seller" = true
  /\ exists skipped,
       [" "; "admin"; "Seller"; "x"] = (skipped ++ "Seller" :: ["x"])%list
       /\ [requiredLine; roleLine] = map (rejectionLine roleLine) skipped.
Proof.
  apply (getValidInput_returns_acceptable isValidRole roleLine
           [" "; "admin"; "Seller"; "x"] ["x"] [requiredLine; roleLine] "Seller").
  reflexivity.
Defined.

(** ** Carts *)

Section OtherDocuments.
Context {Doc : Type}.
Variables q q' : Doc -> bool.

Lemma findOne_updateOne_other (u : Doc -> Doc) (c : list Doc) :
  (forall d, q d = true -> q' d = false /\ q' (u d) = false) ->
  findOne q' (updateOne q u c) = findOne q' c.
Proof.
  intros H. unfold findOne. induction c as [|d c IH]; simpl; trivial.
  destruct (q d) eqn:E; simpl.
  - destruct (H d E) as [-> ->]. reflexivity.
  - now rewrite IH.
Qed.

Lemma findOne_deleteOne_other (c : list Doc) :
  (forall d, q d = true -> q' d = false) ->
  findOne q' (deleteOne q c) = findOne q' c.
Proof.
  intros H. unfold findOne. induction c as [|d c IH]; simpl; trivial.
  destruct (q d) eqn:E; simpl.
  - now rewrite (H d E).
  - now rewrite IH.
Qed.

Lemma findOne_app_other (c : list Doc) (d : Doc) :
  q' d = false -> findOne q' (c ++ [d]) = findOne q' c.
Proof.
  intros H. unfold findOne. induction c as [|x c IH]; simpl.
  - now rewrite H.
  - now rewrite IH.
Qed.
End OtherDocuments.

Lemma byUserId_other (u v : string) (c : Cart.t) :
  u <> v -> byUserId u c = true -> byUserId v c = false.
Proof.
  unfold byUserId. intros Hne Hu. apply String.eqb_eq in Hu.
  apply String.eqb_neq. congruence.
Qed.

(** The cart collection after a run of [placeOrder]. *)
Lemma placeOrder_cart (userId : string) (io : Checkout) (w : World) :
  cart (exec (placeOrder userId io) w) = cart w
  \/ cart (exec (placeOrder userId io) w) = deleteOne (byUserId userId) (cart w).
Proof.
  unfold exec.
  destruct (placeOrder_cases userId io w) as [H|[[H Hno]|[c [Hc [Hi Hyes]]]]].
  - left. now rewrite placeOrder_guard.
  - left. now rewrite placeOrder_cancelled.
  - rewrite (placeOrder_run userId io w c Hc Hi Hyes). cbn [snd].
    destruct (fst (reserveRun (Cart.items c) (products w)));
      [now left|destruct (insertRejects io); [now left | now right]].
Qed.

(** The cart collection after a run of [updateCartItem]. *)
Lemma updateCartItem_cart (userId productName : string) (newQuantity : Z)
    (w : World) :
  cart (exec (updateCartItem userId productName newQuantity) w) = cart w
  \/ exists c items,
       findOne (byUserId userId) (cart w) = Some c
       /\ cart (exec (updateCartItem userId productName newQuantity) w)
          = replaceOne (byUserId userId) (Cart.mk (Cart.userId c) items) (cart w)
       /\ ((newQuantity <= 0
            /\ items = List.filter (fun item => negb (nameIs productName item))
                                   (Cart.items c))
           \/ (0 < newQuantity
               /\ setQuantityAtFirst (nameIs productName) newQuantity
                                     (Cart.items c) = Some items)).
Proof.
  unfold exec.
  destruct (findOne (byUserId userId) (cart w)) as [c|] eqn:Hc.
  - destruct (Z.leb_spec newQuantity 0) as [Hq|Hq].
    + right. eexists c, _. split; trivial.
      rewrite (updateCartItem_remove _ _ _ _ c Hc Hq). cbn [snd cart].
      split; [reflexivity|]. left. now split.
    + destruct (setQuantityAtFirst (nameIs productName) newQuantity (Cart.items c))
        as [items|] eqn:Hset.
      * right. exists c, items. split; trivial.
        rewrite (updateCartItem_update _ _ _ _ c items Hc Hq Hset).
        cbn [snd cart]. split; [reflexivity|]. right. now split.
      * left. now rewrite (updateCartItem_missing _ _ _ _ c Hc Hq Hset).
  - left. unfold updateCartItem, bind, gets. now rewrite Hc.
Qed.

(** The cart collection after a run of [addToCart]. *)
Lemma addToCart_cart (userId : string) (product : Product.t) (quantity : Z)
    (w : World) :
  cart (exec (addToCart userId product quantity) w)
  = match findOne (byUserId userId) (cart w) with
    | Some _ =>
        updateOne (byUserId userId)
          (fun d => Cart.mk (Cart.userId d)
                      (addToSet (lineOf product quantity) (Cart.items d)))
          (cart w)
    | None => (cart w ++ [Cart.mk userId [lineOf product quantity]])%list
    end.
Proof.
  unfold exec.
  destruct (findOne (byUserId userId) (cart w)) as [c|] eqn:Hc.
  - now destruct (addToCart_existing userId product quantity w c Hc) as [-> _].
  - now destruct (addToCart_fresh userId product quantity w Hc) as [-> _].
Qed.

(** The cart lines of another buyer after each of the three calls. *)
Lemma snapshot_of_other_buyer (userId other : string) (w : World) :
  userId <> other ->
  (forall product quantity,
     snapshot other (exec (addToCart userId product quantity) w)
     = snapshot other w)
  /\ (forall productName newQuantity,
        snapshot other (exec (updateCartItem userId productName newQuantity) w)
        = snapshot other w)
  /\ (forall io,
        snapshot other (exec (placeOrder userId io) w) = snapshot other w).
Proof.
  intros Hne. unfold snapshot. split; [|split].
  - intros product quantity. rewrite addToCart_cart.
    destruct (findOne (byUserId userId) (cart w)) as [c|].
    + rewrite findOne_updateOne_other; trivial.
      intros d Hd. split; [now apply (byUserId_other userId)|].
      apply (byUserId_other userId); trivial.
    + rewrite findOne_app_other; trivial.
      apply (byUserId_other userId); trivial. apply byUserId_refl.
  - intros productName newQuantity.
    destruct (updateCartItem_cart userId productName newQuantity w)
      as [->|[c [items [Hc [-> _]]]]]; trivial.
    unfold replaceOne. rewrite findOne_updateOne_other; trivial.
    intros d Hd. split; [now apply (byUserId_other userId)|].
    apply (byUserId_other userId); trivial.
    now apply findOne_In in Hc.
  - intros io. destruct (placeOrder_cart userId io w) as [->| ->]; trivial.
    rewrite findOne_deleteOne_other; trivial.
    intros d Hd. now apply (byUserId_other userId).
Qed.

(** X5. Carts are per buyer: whatever one buyer adds to, updates in or
    orders from their cart, the lines of every other buyer's cart stay as
    they are. *)
Theorem carts_are_per_buyer (userId other : string) (w : World) :
  userId <> other ->
  (forall product quantity,
     snapshot other (exec (addToCart userId product quantity) w)
     = snapshot other w)
  /\ (forall productName newQuantity,
        snapshot other (exec (updateCartItem userId productName newQuantity) w)
        = snapshot other w)
  /\ (forall io,
        snapshot other (exec (placeOrder userId io) w) = snapshot other w).
Proof.
  intros Hne. unfold snapshot. split; [|split].
  - intros product quantity. rewrite addToCart_cart.
    destruct (findOne (byUserId userId) (cart w)) as [c|].
    + rewrite findOne_updateOne_other; trivial.
      intros d Hd. split; [now apply (byUserId_other userId)|].
      apply (byUserId_other userId); trivial.
    + rewrite findOne_app_other; trivial.
      apply (byUserId_other userId); trivial. apply byUserId_refl.
  - intros productName newQuantity.
    destruct (updateCartItem_cart userId productName newQuantity w)
      as [->|[c [items [Hc [-> _]]]]]; trivial.
    unfold replaceOne. rewrite findOne_updateOne_other; trivial.
    intros d Hd. split; [now apply (byUserId_other userId)|].
    apply (byUserId_other userId); trivial.
    now apply findOne_In in Hc.
  - intros io. destruct (placeOrder_cart userId io w) as [->| ->]; trivial.
    rewrite findOne_deleteOne_other; trivial.
    intros d Hd. now apply (byUserId_other userId).
Qed.

Lemma carts_are_per_buyer_witness :
  (forall product quantity,
     snapshot "buyer" (exec (addToCart "other" product quantity) scenarioB)
     = snapshot "buyer" scenarioB)
  /\ (forall productName newQuantity,
        snapshot "buyer"
          (exec (updateCartItem "other" productName newQuantity) scenarioB)
        = snapshot "buyer" scenarioB)
  /\ (forall io,
        snapshot "buyer" (exec (placeOrder "other" io) scenarioB)
        = snapshot "buyer" scenarioB).
Proof.
  apply (carts_are_per_buyer "other" "buyer" scenarioB). discriminate.
Defined.

Lemma updateOne_same_userIds (u : string) (f : Cart.t -> Cart.t)
    (c : list Cart.t) :
  (forall d, Cart.userId (f d) = Cart.userId d) ->
  map Cart.userId (updateOne (byUserId u) f c) = map Cart.userId c.
Proof.
  intros H. induction c as [|d c IH]; simpl; trivial.
  destruct (byUserId u d); simpl; [now rewrite H | now rewrite IH].
Qed.

Lemma replaceOne_same_userIds (u : string) (d : Cart.t) (c : list Cart.t) :
  Cart.userId d = u ->
  map Cart.userId (replaceOne (byUserId u) d c) = map Cart.userId c.
Proof.
  intros H. unfold replaceOne. induction c as [|x c IH]; simpl; trivial.
  destruct (byUserId u x) eqn:E; simpl; [|now rewrite IH].
  unfold byUserId in E. apply String.eqb_eq in E. congruence.
Qed.

Lemma findOne_none_userIds (u : string) (c : list Cart.t) :
  findOne (byUserId u) c = None -> ~ In u (map Cart.userId c).
Proof.
  unfold findOne. induction c as [|d c IH]; simpl; [tauto|].
  unfold byUserId at 1. destruct (String.eqb_spec (Cart.userId d) u); [discriminate|].
  intros H [E|Hin]; [congruence | now apply IH].
Qed.

Lemma deleteOne_userIds (u : string) (c : list Cart.t) :
  NoDup (map Cart.userId c) ->
  NoDup (map Cart.userId (deleteOne (byUserId u) c))
  /\ findOne (byUserId u) (deleteOne (byUserId u) c) = None
  /\ (forall v, In v (map Cart.userId (deleteOne (byUserId u) c)) ->
                In v (map Cart.userId c)).
Proof.
  unfold findOne. induction c as [|d c IH]; simpl; intros Hnd.
  - repeat split; trivial.
  - inversion Hnd as [|? ? Hd Hrest]; subst.
    destruct (byUserId u d) eqn:E.
    + repeat split; trivial; [|auto].
      unfold byUserId in E. apply String.eqb_eq in E. subst u.
      destruct (List.find (byUserId (Cart.userId d)) c) as [x|] eqn:Hx; trivial.
      apply find_some in Hx as [Hin Hq]. exfalso. apply Hd.
      unfold byUserId in Hq. apply String.eqb_eq in Hq. rewrite <- Hq.
      now apply in_map.
    + destruct (IH Hrest) as [Hnd' [Hnone Hsub]]. simpl. rewrite E.
      repeat split; trivial.
      * constructor; trivial. intros Hin. apply Hd. now apply Hsub.
      * intros v [Hv|Hv]; [now left | right; now apply Hsub].
Qed.

(** The three calls keep the cart documents one to a buyer. *)
Lemma uniqueCarts_kept (w : World) :
  uniqueCarts w ->
  (forall userId product quantity,
     uniqueCarts (exec (addToCart userId product quantity) w))
  /\ (forall userId productName newQuantity,
        uniqueCarts (exec (updateCartItem userId productName newQuantity) w))
  /\ (forall userId io, uniqueCarts (exec (placeOrder userId io) w)).
Proof.
  unfold uniqueCarts. intros Hnd. split; [|split].
  - intros userId product quantity. rewrite addToCart_cart.
    destruct (findOne (byUserId userId) (cart w)) as [c|] eqn:Hc.
    + now rewrite updateOne_same_userIds.
    + rewrite map_app. cbn [map Cart.userId].
      apply NoDup_app; trivial.
      * repeat constructor. simpl. tauto.
      * intros v Hv [<-|[]]. now apply (findOne_none_userIds userId (cart w)).
  - intros userId productName newQuantity.
    destruct (updateCartItem_cart userId productName newQuantity w)
      as [->|[c [items [Hc [-> _]]]]]; trivial.
    rewrite replaceOne_same_userIds; trivial.
    apply findOne_In in Hc as [_ Hc]. now apply String.eqb_eq in Hc.
  - intros userId io. destruct (placeOrder_cart userId io w) as [->| ->]; trivial.
    now apply deleteOne_userIds.
Qed.

(** X6. A buyer never has two cart documents: from a cart collection
    with at most one document for each buyer, [addToCart],
    [updateCartItem] and [placeOrder] all leave such a collection. *)
Theorem one_cart_per_buyer (w : World) :
  uniqueCarts w ->
  (forall userId product quantity,
     uniqueCarts (exec (addToCart userId product quantity) w))
  /\ (forall userId productName newQuantity,
        uniqueCarts (exec (updateCartItem userId productName newQuantity) w))
  /\ (forall userId io, uniqueCarts (exec (placeOrder userId io) w)).
Proof.
  unfold uniqueCarts. intros Hnd. split; [|split].
  - intros userId product quantity. rewrite addToCart_cart.
    destruct (findOne (byUserId userId) (cart w)) as [c|] eqn:Hc.
    + now rewrite updateOne_same_userIds.
    + rewrite map_app. cbn [map Cart.userId].
      apply NoDup_app; trivial.
      * repeat constructor. simpl. tauto.
      * intros v Hv [<-|[]]. now apply (findOne_none_userIds userId (cart w)).
  - intros userId productName newQuantity.
    destruct (updateCartItem_cart userId productName newQuantity w)
      as [->|[c [items [Hc [-> _]]]]]; trivial.
    rewrite replaceOne_same_userIds; trivial.
    apply findOne_In in Hc as [_ Hc]. now apply String.eqb_eq in Hc.
  - intros userId io. destruct (placeOrder_cart userId io w) as [->| ->]; trivial.
    now apply deleteOne_userIds.
Qed.

Lemma one_cart_per_buyer_witness :
  uniqueCarts scenarioB
  /\ (forall userId product quantity,
        uniqueCarts (exec (addToCart userId product quantity) scenarioB))
  /\ (forall userId productName newQuantity,
        uniqueCarts (exec (updateCartItem userId productName newQuantity) scenarioB))
  /\ (forall userId io, uniqueCarts (exec (placeOrder userId io) scenarioB)).
Proof.
  assert (H : uniqueCarts scenarioB)
    by (repeat constructor; simpl; tauto).
  split; [exact H | exact (one_cart_per_buyer scenarioB H)].
Defined.

(** What a run of [placeOrder] that reports success has done. *)
Lemma placeOrder_placed (userId : string) (io : Checkout) (w : World) :
  orderPlaced (exec (placeOrder userId io) w) ->
  exists c,
    findOne (byUserId userId) (cart w) = Some c
    /\ Cart.items c <> []
    /\ fst (reserveRun (Cart.items c) (products w)) = None
    /\ exec (placeOrder userId io) w
       = mkWorld (snd (reserveRun (Cart.items c) (products w)))
                 (deleteOne (byUserId userId) (cart w))
                 (orders w ++ [orderOf userId c io]) (newRegister w)
                 (console w ++ [paymentLine; "Order placed successfully!"]).
Proof.
  unfold orderPlaced, exec. intros Hplaced.
  destruct (placeOrder_cases userId io w) as [H|[[H Hno]|[c [Hc [Hi Hyes]]]]].
  - rewrite placeOrder_guard in Hplaced by trivial. cbn [snd] in Hplaced.
    rewrite lastLine_set_console1 in Hplaced. discriminate.
  - rewrite placeOrder_cancelled in Hplaced by trivial. cbn [snd] in Hplaced.
    rewrite lastLine_set_console2 in Hplaced. discriminate.
  - exists c. rewrite (placeOrder_run userId io w c Hc Hi Hyes) in *.
    cbn [snd] in *.
    assert (Hfailed : forall ps message,
      lastLine (mkWorld ps (cart w) (orders w) (newRegister w)
                  (console w ++ [paymentLine; "Failed to place order: " ++ message]))
      <> "Order placed successfully!").
    { intros ps message. unfold lastLine. cbn [console].
      rewrite last_two. discriminate. }
    destruct (fst (reserveRun (Cart.items c) (products w))) as [message|].
    + now apply Hfailed in Hplaced.
    + destruct (insertRejects io) as [message|].
      * now apply Hfailed in Hplaced.
      * repeat split; trivial.
Qed.

(** X7. No order is placed twice: once [placeOrder] has reported success
    for a buyer (who had one cart document), the buyer has no cart lines
    left, and a further [placeOrder] for that buyer only reports the empty
    cart: no stock is taken and no second order is appended. *)
Theorem placeOrder_not_repeated (userId : string) (io again : Checkout)
    (w : World) :
  uniqueCarts w ->
  orderPlaced (exec (placeOrder userId io) w) ->
  snapshot userId (exec (placeOrder userId io) w) = []
  /\ exec (placeOrder userId again) (exec (placeOrder userId io) w)
     = set_console
         (console (exec (placeOrder userId io) w)
          ++ ["Your cart is empty. Cannot place order."])
         (exec (placeOrder userId io) w).
Proof.
  intros Hnd Hplaced.
  destruct (placeOrder_placed userId io w Hplaced) as [c [Hc [Hi [Hrun Hw']]]].
  assert (Hempty : snapshot userId (exec (placeOrder userId io) w) = []).
  { unfold snapshot. rewrite Hw'. cbn [cart].
    destruct (deleteOne_userIds userId (cart w) Hnd) as [_ [-> _]]. reflexivity. }
  split; [exact Hempty|].
  unfold exec at 1. now rewrite placeOrder_guard.
Qed.

Lemma placeOrder_not_repeated_witness :
  snapshot "buyer" (exec (placeOrder "buyer" yes) scenarioA) = []
  /\ exec (placeOrder "buyer" yes) (exec (placeOrder "buyer" yes) scenarioA)
     = set_console
         (console (exec (placeOrder "buyer" yes) scenarioA)
          ++ ["Your cart is empty. Cannot place order."])
         (exec (placeOrder "buyer" yes) scenarioA).
Proof.
  apply (placeOrder_not_repeated "buyer" yes yes scenarioA).
  - repeat constructor. simpl. tauto.
  - reflexivity.
Defined.

Lemma setQuantityAtFirst_lines (found : CartItem.t -> bool) (newQuantity : Z)
    (items items' : list CartItem.t) :
  setQuantityAtFirst found newQuantity items = Some items' ->
  map lineKey items' = map lineKey items
  /\ (0 < newQuantity ->
      Forall (fun item => 0 < CartItem.quantity item) items ->
      Forall (fun item => 0 < CartItem.quantity item) items').
Proof.
  revert items'. induction items as [|item items IH]; intros items' H;
    cbn [setQuantityAtFirst] in H; [discriminate|].
  destruct (found item).
  - injection H as <-. split; [reflexivity|].
    intros Hq Hall. inversion Hall; subst. now constructor.
  - destruct (setQuantityAtFirst found newQuantity items) as [rest|];
      [|discriminate].
    injection H as <-. destruct (IH rest eq_refl) as [Hkeys Hpos].
    split; [cbn [map]; now rewrite Hkeys|].
    intros Hq Hall. inversion Hall; subst. constructor; auto.
Qed.

(** X8. The cart menu cannot remove a line.  The menu passes
    [updateCartItem] the quantity that [askForQuantity] returns, which is
    never zero, so whatever is typed the cart afterwards holds the same
    lines (product, name, price) in the same order; only a quantity may
    have changed. *)
Theorem menu_update_never_removes (stdin rest lines : list string)
    (newQuantity : Z) (userId productName : string) (w : World) :
  askForQuantity stdin = (Some (newQuantity, rest), lines) ->
  map lineKey (snapshot userId
                 (exec (updateCartItem userId productName newQuantity) w))
  = map lineKey (snapshot userId w).
Proof.
  intros Hasked.
  apply askForQuantity_result in Hasked as [Hq _].
  destruct (updateCartItem_cart userId productName newQuantity w)
    as [Hsame|[c [items [Hc [Hcart [[Hle _]|[_ Hset]]]]]]].
  - unfold snapshot. now rewrite Hsame.
  - lia.
  - rewrite (snapshot_replaceOne userId w _ c items Hc Hcart).
    unfold snapshot. rewrite Hc.
    now apply setQuantityAtFirst_lines in Hset as [-> _].
Qed.

Lemma menu_update_never_removes_witness :
  map lineKey (snapshot "buyer" (exec (updateCartItem "buyer" "P" 9) scenarioB))
  = map lineKey (snapshot "buyer" scenarioB).
Proof.
  apply (menu_update_never_removes ["0"; "9"] [] [quantityLine] 9
           "buyer" "P" scenarioB).
  reflexivity.
Defined.

Lemma Forall_deleteOne {Doc : Type} (P : Doc -> Prop) (q : Doc -> bool)
    (c : list Doc) :
  Forall P c -> Forall P (deleteOne q c).
Proof.
  induction 1 as [|d c Hd Hc IH]; simpl; trivial.
  destruct (q d); [exact Hc | now constructor].
Qed.

Lemma Forall_addToSet (P : CartItem.t -> Prop) (x : CartItem.t)
    (l : list CartItem.t) :
  P x -> Forall P l -> Forall P (addToSet x l).
Proof.
  intros Hx Hl. unfold addToSet. destruct (existsb _ l); trivial.
  apply Forall_app. split; trivial. now constructor.
Qed.

Lemma Forall_filter_items (P : CartItem.t -> Prop) (keep : CartItem.t -> bool)
    (l : list CartItem.t) :
  Forall P l -> Forall P (List.filter keep l).
Proof.
  induction 1 as [|x l Hx Hl IH]; simpl; trivial.
  destruct (keep x); [now constructor | exact IH].
Qed.

(** X9. Cart quantities stay positive: from carts whose lines all ask for
    a positive quantity, [addToCart] with a positive quantity,
    [updateCartItem] with any quantity (zero or less removes, it is never
    stored) and [placeOrder] all leave carts whose lines ask for a
    positive quantity. *)
Theorem cart_quantities_stay_positive (w : World) :
  cartsPositive w ->
  (forall userId product quantity,
     0 < quantity ->
     cartsPositive (exec (addToCart userId product quantity) w))
  /\ (forall userId productName newQuantity,
        cartsPositive (exec (updateCartItem userId productName newQuantity) w))
  /\ (forall userId io, cartsPositive (exec (placeOrder userId io) w)).
Proof.
  unfold cartsPositive. intros Hpos. split; [|split].
  - intros userId product quantity Hq. rewrite addToCart_cart.
    destruct (findOne (byUserId userId) (cart w)) as [c|] eqn:Hc.
    + apply Forall_updateOne; trivial. intros d Hd. cbn [Cart.items].
      apply Forall_addToSet; [exact Hq|].
      apply findOne_In in Hd as [Hd _].
      now apply (proj1 (Forall_forall _ _) Hpos d).
    + apply Forall_app. split; trivial. repeat constructor. exact Hq.
  - intros userId productName newQuantity.
    destruct (updateCartItem_cart userId productName newQuantity w)
      as [->|[c [items [Hc [-> Hitems]]]]]; trivial.
    unfold replaceOne. apply Forall_updateOne; trivial.
    intros d _. cbn [Cart.items].
    assert (Hold : Forall (fun item => 0 < CartItem.quantity item) (Cart.items c)).
    { apply findOne_In in Hc as [Hc _].
      now apply (proj1 (Forall_forall _ _) Hpos c). }
    destruct Hitems as [[_ ->]|[Hq Hset]].
    + now apply Forall_filter_items.
    + apply setQuantityAtFirst_lines in Hset as [_ Hset]. now apply Hset.
  - intros userId io. destruct (placeOrder_cart userId io w) as [->| ->]; trivial.
    now apply Forall_deleteOne.
Qed.

Lemma cart_quantities_stay_positive_witness :
  cartsPositive scenarioB
  /\ (forall userId product,
        cartsPositive (exec (addToCart userId product 4) scenarioB))
  /\ (forall userId productName newQuantity,
        cartsPositive (exec (updateCartItem userId productName newQuantity) scenarioB))
  /\ (forall userId io, cartsPositive (exec (placeOrder userId io) scenarioB)).
Proof.
  assert (H : cartsPositive scenarioB) by (repeat constructor).
  destruct (cart_quantities_stay_positive scenarioB H) as [Hadd [Hupdate Horder]].
  split; [exact H|]. split; [|split; [exact Hupdate | exact Horder]].
  intros userId product. apply Hadd. reflexivity.
Defined.

(** ** Checkout: stock accounting *)

Lemma updateOne_absent {Doc : Type} (q : Doc -> bool) (u : Doc -> Doc)
    (c : list Doc) :
  findOne q c = None -> updateOne q u c = c.
Proof.
  unfold findOne. induction c as [|x c IH]; simpl; intros H; trivial.
  destruct (q x); [discriminate | f_equal; now apply IH].
Qed.

Lemma stockIn_decrement (id : ObjectId) (item : CartItem.t)
    (ps : list Product.t) :
  stockIn (decrement ps item) id
  = option_map
      (fun available =>
         available - (if N.eqb (CartItem.productId item) id
                      then CartItem.quantity item else 0))
      (stockIn ps id).
Proof.
  unfold stockIn. destruct (N.eqb_spec (CartItem.productId item) id) as [E|E].
  - subst id. unfold decrement.
    destruct (findOne (byId (CartItem.productId item)) ps) as [p|] eqn:Hp.
    + rewrite (findOne_updateOne _ _ ps p Hp).
      * cbn [option_map incQuantity Product.quantity]. f_equal; lia.
      * apply findOne_In in Hp as [_ Hp]. exact Hp.
    + rewrite (updateOne_absent _ _ ps Hp), Hp. reflexivity.
  - rewrite findOne_decrement_other by exact E.
    destruct (findOne (byId id) ps); cbn [option_map]; trivial.
    f_equal. lia.
Qed.

Lemma stockIn_reserved (id : ObjectId) (items : list CartItem.t)
    (ps : list Product.t) :
  stockIn (reserved ps items) id
  = option_map (fun available => available - demand id items) (stockIn ps id).
Proof.
  unfold reserved. revert ps.
  induction items as [|item rest IH]; intros ps; cbn [fold_left demand].
  - destruct (stockIn ps id); cbn [option_map]; trivial. f_equal. lia.
  - rewrite IH, stockIn_decrement.
    destruct (stockIn ps id); cbn [option_map]; trivial. f_equal. lia.
Qed.

Lemma reserveRun_none (items : list CartItem.t) (ps : list Product.t) :
  fst (reserveRun items ps) = None ->
  allPass ps items = true /\ snd (reserveRun items ps) = reserved ps items.
Proof.
  revert ps. induction items as [|item rest IH]; intros ps H;
    cbn [reserveRun allPass reserved fold_left] in *; [now split|].
  destruct (lineFails ps item); [discriminate|].
  cbn [negb andb]. now apply IH.
Qed.

(** X10. A checkout whose lines can all be met in turn, confirmed by the
    buyer and accepted by the order collection, commits: the stock of
    every line is decremented, one order with the cart's lines, the date,
    the payment label and the address is appended, the buyer's cart
    document is deleted, and success is reported. *)
Theorem placeOrder_commits (userId : string) (io : Checkout) (w : World)
    (c : Cart.t) :
  findOne (byUserId userId) (cart w) = Some c ->
  Cart.items c <> [] ->
  toLowerCase (confirmOrder io) = "yes" ->
  allPass (products w) (Cart.items c) = true ->
  insertRejects io = None ->
  placeOrder userId io w
  = (Normal tt,
     mkWorld (reserved (products w) (Cart.items c))
             (deleteOne (byUserId userId) (cart w))
             (orders w ++ [Order.mk userId (Cart.items c) (now io)
                                    "Cash on Delivery"
                                    (Address.mk (doorNo io) (streetArea io)
                                                (cityPincode io))])
             (newRegister w)
             (console w ++ [paymentLine; "Order placed successfully!"])).
Proof.
  intros Hc Hitems Hyes Hall Hinsert.
  rewrite (placeOrder_run userId io w c Hc Hitems Hyes).
  now rewrite (reserveRun_allPass _ _ Hall), Hinsert.
Qed.

Lemma placeOrder_commits_witness :
  placeOrder "buyer" yes scenarioA
  = (Normal tt,
     mkWorld (reserved (products scenarioA) [lineOf productP 3])
             (deleteOne (byUserId "buyer") (cart scenarioA))
             (orders scenarioA
              ++ [Order.mk "buyer" [lineOf productP 3] (now yes)
                           "Cash on Delivery"
                           (Address.mk (doorNo yes) (streetArea yes)
                                       (cityPincode yes))])
             (newRegister scenarioA)
             (console scenarioA ++ [paymentLine; "Order placed successfully!"])).
Proof.
  apply (placeOrder_commits "buyer" yes scenarioA
           (Cart.mk "buyer" [lineOf productP 3]));
    try reflexivity.
  discriminate.
Defined.

(** X11. Every committed order is backed by stock: with cart lines of
    positive quantity and every stock within the safe integers, when
    [placeOrder] reports success the order appended holds the lines of the
    buyer's cart, every line was met from the stock left by the lines
    before it, and the stock of every product has gone down by exactly the
    total quantity that the order's lines ask of that product. *)
Theorem committed_order_accounts_for_stock (userId : string) (io : Checkout)
    (w : World) :
  cartsPositive w ->
  safeStock w ->
  orderPlaced (exec (placeOrder userId io) w) ->
  exists order,
    orders (exec (placeOrder userId io) w) = (orders w ++ [order])%list
    /\ Order.items order = snapshot userId w
    /\ allPass (products w) (Order.items order) = true
    /\ forall id,
         stock id (exec (placeOrder userId io) w)
         = option_map
             (fun available => available - demand id (Order.items order))
             (stock id w).
Proof.
  intros _ _ Hplaced.
  destruct (placeOrder_placed userId io w Hplaced) as [c [Hc [Hi [Hrun ->]]]].
  destruct (reserveRun_none _ _ Hrun) as [Hall Hreserved].
  exists (orderOf userId c io). cbn [orders products].
  unfold snapshot. rewrite Hc. repeat split; trivial.
  intros id. unfold stock. cbn [products]. rewrite Hreserved.
  apply stockIn_reserved.
Qed.

Lemma committed_order_accounts_for_stock_witness :
  exists order,
    orders (exec (placeOrder "buyer" yes) scenarioA)
    = (orders scenarioA ++ [order])%list
    /\ Order.items order = snapshot "buyer" scenarioA
    /\ allPass (products scenarioA) (Order.items order) = true
    /\ forall id,
         stock id (exec (placeOrder "buyer" yes) scenarioA)
         = option_map
             (fun available => available - demand id (Order.items order))
             (stock id scenarioA).
Proof.
  apply (committed_order_accounts_for_stock "buyer" yes scenarioA).
  - repeat constructor.
  - repeat constructor; simpl; unfold maxSafeInteger; lia.
  - reflexivity.
Defined.

Lemma stockIn_reserveRun (id : ObjectId) (items : list CartItem.t)
    (ps : list Product.t) :
  Forall (fun item => 0 < CartItem.quantity item) items ->
  exists taken,
    0 <= taken
    /\ stockIn (snd (reserveRun items ps)) id
       = option_map (fun available => available - taken) (stockIn ps id).
Proof.
  intros Hpos. revert ps.
  induction Hpos as [|item rest Hitem _ IH]; intros ps; cbn [reserveRun].
  - exists 0. split; [lia|]. cbn [snd].
    destruct (stockIn ps id); cbn [option_map]; trivial. f_equal; lia.
  - destruct (lineFails ps item).
    + exists 0. split; [lia|]. cbn [snd].
      destruct (stockIn ps id); cbn [option_map]; trivial. f_equal; lia.
    + destruct (IH (decrement ps item)) as [taken [Htaken ->]].
      rewrite stockIn_decrement.
      exists ((if N.eqb (CartItem.productId item) id
               then CartItem.quantity item else 0) + taken).
      split; [destruct (N.eqb _ id); lia|].
      destruct (stockIn ps id); cbn [option_map]; trivial. f_equal; lia.
Qed.

(** X12. [placeOrder] never adds to stock: with carts whose lines ask for
    positive quantities, however a run ends (empty cart, not confirmed,
    failed part of the way, append rejected, committed), no product
    appears or disappears and the stock of every product is what it was
    less some quantity that is not negative. *)
Theorem placeOrder_never_raises_stock (userId : string) (io : Checkout)
    (w : World) (id : ObjectId) :
  cartsPositive w ->
  exists taken,
    0 <= taken
    /\ stock id (exec (placeOrder userId io) w)
       = option_map (fun available => available - taken) (stock id w).
Proof.
  intros Hpos. unfold stock.
  destruct (placeOrder_products userId io w) as [->|[c [Hc ->]]].
  - exists 0. split; [lia|].
    destruct (findOne (byId id) (products w)); cbn [option_map]; trivial.
    f_equal; lia.
  - apply stockIn_reserveRun.
    apply findOne_In in Hc as [Hc _].
    now apply (proj1 (Forall_forall _ _) Hpos c).
Qed.

Lemma placeOrder_never_raises_stock_witness :
  exists taken,
    0 <= taken
    /\ stock 1%N (exec (placeOrder "buyer" yes) scenarioB)
       = option_map (fun available => available - taken) (stock 1%N scenarioB).
Proof.
  apply (placeOrder_never_raises_stock "buyer" yes scenarioB 1%N).
  repeat constructor.
Defined.





(** ** Accounts *)

Lemma registerUser_cases (name username password phoneNumber role : string)
    (insertedId : ObjectId) (now : Z) (db : Accounts) :
  (exists message,
     registerUser name username password phoneNumber role insertedId now db
     = (Thrown message, db, []))
  \/ (name <> "" /\ username <> "" /\ password <> "" /\ phoneNumber <> ""
      /\ findOne (byUsername username) (newRegisters db) = None
      /\ registerUser name username password phoneNumber role insertedId now db
         = (Normal tt,
            mkAccounts (users db)
              (newRegisters db
               ++ [Account.mk insertedId name username password phoneNumber
                              role now]),
            ["User registered successfully!"])).
Proof.
  unfold registerUser, byUsername.
  destruct (String.eqb_spec name ""); [left; now eexists|].
  destruct (String.eqb_spec username ""); [left; now eexists|].
  destruct (String.eqb_spec password ""); [left; now eexists|].
  destruct (String.eqb_spec phoneNumber ""); [left; now eexists|].
  cbn [orb].
  destruct (findOne _ (newRegisters db)); [left; now eexists|].
  right. repeat split; trivial.
Qed.

Lemma findOne_none_usernames (username : string) (l : list Account.t) :
  findOne (byUsername username) l = None ->
  ~ In username (map Account.username l).
Proof.
  unfold findOne. induction l as [|a l IH]; simpl; [tauto|].
  unfold byUsername at 1.
  destruct (String.eqb_spec (Account.username a) username); [discriminate|].
  intros H [E|Hin]; [congruence | now apply IH].
Qed.

(** X14. Usernames stay unique among registered accounts: from a
    [newRegister] collection in which no two accounts share a username,
    [registerUser], whatever its arguments and whether it throws or not,
    leaves such a collection; it leaves the [login] collection and every
    account already registered as they are. *)
Theorem registerUser_keeps_usernames_unique
    (name username password phoneNumber role : string)
    (insertedId : ObjectId) (now : Z) (db : Accounts) :
  uniqueUsernames db ->
  let db' := snd (fst (registerUser name username password phoneNumber role
                                    insertedId now db)) in
  uniqueUsernames db'
  /\ users db' = users db
  /\ exists added, newRegisters db' = (newRegisters db ++ added)%list.
Proof.
  intros Huniq db'. subst db'.
  destruct (registerUser_cases name username password phoneNumber role
              insertedId now db) as [[message ->]|[_ [_ [_ [_ [Hnone ->]]]]]];
    cbn [fst snd].
  - repeat split; trivial. exists []. now rewrite app_nil_r.
  - unfold uniqueUsernames in *. cbn [users newRegisters].
    repeat split; [|now eexists].
    rewrite map_app. cbn [map Account.username]. apply NoDup_app; trivial.
    + repeat constructor. simpl. tauto.
    + intros v Hv [<-|[]]. now apply (findOne_none_usernames username (newRegisters db)).
Qed.

Lemma registerUser_keeps_usernames_unique_witness :
  let db' := snd (fst (registerUser "Bob" "ann" "x" "1" "buyer" 10%N 1
                                    (mkAccounts [legacy] [ann]))) in
  uniqueUsernames db'
  /\ users db' = users (mkAccounts [legacy] [ann])
  /\ exists added,
       newRegisters db' = (newRegisters (mkAccounts [legacy] [ann]) ++ added)%list.
Proof.
  apply (registerUser_keeps_usernames_unique "Bob" "ann" "x" "1" "buyer" 10%N 1
           (mkAccounts [legacy] [ann])).
  repeat constructor. simpl. tauto.
Defined.

(** X15. Registration and login round trip: after [registerUser] has
    completed normally, [login] with the same username and password
    returns a session and reports success; unless the [login] collection
    holds that username with a password that [==] lets equal the typed
    one, the session is the one of the new account: its [_id] in
    hexadecimal and the role as typed. *)
Theorem register_then_login (name username password phoneNumber role : string)
    (insertedId : ObjectId) (now : Z) (db db' : Accounts) (lines : list string) :
  registerUser name username password phoneNumber role insertedId now db
  = (Normal tt, db', lines) ->
  exists session,
    login username password db' = (Some session, ["Successfully logged in!"])
    /\ ((forall user,
           findOne (fun u => String.eqb (Login.username u) username) (users db)
           = Some user ->
           looselyEquals password (Login.password user) = false) ->
        session = Session.mk (toString insertedId) role).
Proof.
  intros Hrun.
  destruct (registerUser_cases name username password phoneNumber role
              insertedId now db) as [[message H]|[_ [_ [_ [_ [Hnone H]]]]]];
    rewrite H in Hrun; [discriminate|].
  injection Hrun as <- _. unfold login. cbn [users newRegisters].
  change (fun u : Account.t => String.eqb (Account.username u) username)
    with (byUsername username).
  rewrite (findOne_app_none (byUsername username) (newRegisters db)
             (Account.mk insertedId name username password phoneNumber role now)
             Hnone)
    by (unfold byUsername; apply String.eqb_refl).
  cbn [Account.password Account._id Account.role]. rewrite String.eqb_refl.
  destruct (findOne _ (users db)) as [user|] eqn:Huser.
  - destruct (looselyEquals password (Login.password user)) eqn:E.
    + eexists. split; [reflexivity|]. intros Hother.
      rewrite (Hother user eq_refl) in E. discriminate.
    + eexists. split; reflexivity.
  - eexists. split; reflexivity.
Qed.

Lemma register_then_login_witness :
  exists session,
    login "bob" "pw2"
      (mkAccounts [legacy]
         [ann; Account.mk 10%N "Bob" "bob" "pw2" "0123456789" "buyer" 1])
    = (Some session, ["Successfully logged in!"])
    /\ ((forall user,
           findOne (fun u => String.eqb (Login.username u) "bob")
                   (users (mkAccounts [legacy] [ann]))
           = Some user ->
           looselyEquals "pw2" (Login.password user) = false) ->
        session = Session.mk (toString 10%N) "buyer").
Proof.
  apply (register_then_login "Bob" "bob" "pw2" "0123456789" "buyer" 10%N 1
           (mkAccounts [legacy] [ann])
           (mkAccounts [legacy]
              [ann; Account.mk 10%N "Bob" "bob" "pw2" "0123456789" "buyer" 1])
           ["User registered successfully!"]).
  reflexivity.
Defined.

(** X16. [login] is sound: a session is returned only for a stored
    document with that username, whose password [==] lets equal the typed
    one in the [login] collection, or is the typed one in the
    [newRegister] collection, and of which the session carries the [_id]
    in hexadecimal and the role; and [null] is returned, with the
    ``Incorrect'' line, only when the first document of that username in
    each of the two collections, if there is one, has a password that
    does not compare equal. *)
Theorem login_sound (username password : string) (db : Accounts) :
  match login username password db with
  | (Some session, lines) =>
      lines = ["Successfully logged in!"]
      /\ ((exists user,
             In user (users db)
             /\ Login.username user = username
             /\ looselyEquals password (Login.password user) = true
             /\ session = Session.mk (toString (Login._id user))
                                     (Login.role user))
          \/ (exists account,
                In account (newRegisters db)
                /\ Account.username account = username
                /\ Account.password account = password
                /\ session = Session.mk (toString (Account._id account))
                                        (Account.role account)))
  | (None, lines) =>
      lines = ["Incorrect username or password"]
      /\ (forall user,
            findOne (fun u => String.eqb (Login.username u) username) (users db)
            = Some user ->
            looselyEquals password (Login.password user) = false)
      /\ (forall account,
            findOne (byUsername username) (newRegisters db) = Some account ->
            Account.password account <> password)
  end.
Proof.
  unfold login, byUsername.
  assert (Hsecond :
    forall (P : Prop), P ->
    match
      match findOne (fun u => String.eqb (Account.username u) username)
                    (newRegisters db) with
      | Some newRegister =>
          if String.eqb password (Account.password newRegister) then
            (Some (Session.mk (toString (Account._id newRegister))
                              (Account.role newRegister)),
             ["Successfully logged in!"])
          else (None, ["Incorrect username or password"])
      | None => (None, ["Incorrect username or password"])
      end
    with
    | (Some session, lines) =>
        lines = ["Successfully logged in!"]
        /\ ((exists user,
               In user (users db)
               /\ Login.username user = username
               /\ looselyEquals password (Login.password user) = true
               /\ session = Session.mk (toString (Login._id user))
                                       (Login.role user))
            \/ (exists account,
                  In account (newRegisters db)
                  /\ Account.username account = username
                  /\ Account.password account = password
                  /\ session = Session.mk (toString (Account._id account))
                                          (Account.role account)))
    | (None, lines) =>
        lines = ["Incorrect username or password"]
        /\ P
        /\ (forall account,
              findOne (fun u => String.eqb (Account.username u) username)
                      (newRegisters db) = Some account ->
              Account.password account <> password)
    end).
  { intros P HP.
    destruct (findOne _ (newRegisters db)) as [account|] eqn:Haccount.
    - destruct (String.eqb_spec password (Account.password account)) as [E|E].
      + split; trivial. right. exists account.
        apply findOne_In in Haccount as [Hin Hq]. apply String.eqb_eq in Hq.
        repeat split; auto.
      + repeat split; trivial. intros a [= <-]. congruence.
    - repeat split; trivial. discriminate. }
  destruct (findOne _ (users db)) as [user|] eqn:Huser.
  - destruct (looselyEquals password (Login.password user)) eqn:E.
    + split; trivial. left. exists user.
      apply findOne_In in Huser as [Hin Hq]. apply String.eqb_eq in Hq.
      repeat split; auto.
    + apply Hsecond. intros u [= <-]. exact E.
  - apply Hsecond. discriminate.
Qed.




(** ** The catalogue *)

(** X18. [findProduct] returns the first product of that name in the
    collection, or [null] when no product has the name; it changes
    nothing.  A product that shares its name with an earlier one is
    therefore never returned. *)
Theorem findProduct_first_of_name (productName : string) (w : World) :
  snd (findProduct productName w) = w
  /\ match fst (findProduct productName w) with
     | Normal (Some product) =>
         exists before after,
           products w = (before ++ product :: after)%list
           /\ Product.name product = productName
           /\ Forall (fun p => Product.name p <> productName) before
     | Normal None =>
         Forall (fun p => Product.name p <> productName) (products w)
     | Thrown _ => False
     end.
Proof.
  split; [reflexivity|]. unfold findProduct, gets, findOne. cbn [fst].
  induction (products w) as [|p ps IH]; cbn [List.find]; [constructor|].
  destruct (String.eqb_spec (Product.name p) productName) as [E|E].
  - exists [], ps. repeat split; trivial.
  - destruct (List.find _ ps) as [product|].
    + destruct IH as [before [after [-> [Hname Hbefore]]]].
      exists (p :: before), after. repeat split; trivial. now constructor.
    + now constructor.
Qed.

Lemma addProduct_run (seller_id : ObjectId) (io : NewProduct) (w : World) :
  addProduct seller_id io w
  = match findOne (bySellerId seller_id) (newRegister w) with
    | None => (Normal tt, set_console (console w ++ ["Seller not found."]) w)
    | Some seller =>
        (Normal tt,
         mkWorld (products w
                  ++ [Product.mk (givenId io) (typedName io) (parsedPrice io)
                                 (askedQuantity io) (User.username seller)])
                 (cart w) (orders w) (newRegister w)
                 (console w ++ ["Product added successfully!"]))
    end.
Proof.
  unfold addProduct, bind, gets, bySellerId.
  now destruct (findOne _ (newRegister w)).
Qed.

(** X19. [addProduct] keeps the stock invariants: with the positive
    quantity that [askForQuantity] returns it leaves no negative stock
    where there was none, and with an [_id] that no product has yet it
    leaves the identities unique; carts, orders and users stay as they
    are. *)
Theorem addProduct_keeps_invariants (seller_id : ObjectId) (io : NewProduct)
    (w : World) :
  0 < askedQuantity io ->
  ~ In (givenId io) (map Product._id (products w)) ->
  (stockNonNegative w -> stockNonNegative (exec (addProduct seller_id io) w))
  /\ (uniqueIds w -> uniqueIds (exec (addProduct seller_id io) w))
  /\ cart (exec (addProduct seller_id io) w) = cart w
  /\ orders (exec (addProduct seller_id io) w) = orders w
  /\ newRegister (exec (addProduct seller_id io) w) = newRegister w.
Proof.
  intros Hq Hfresh. unfold exec, stockNonNegative, uniqueIds.
  rewrite addProduct_run.
  destruct (findOne (bySellerId seller_id) (newRegister w)) as [seller|];
    cbn [snd products cart orders newRegister set_console].
  - repeat split; trivial.
    + intros Hnn. apply Forall_app. split; trivial.
      repeat constructor. cbn [Product.quantity]. lia.
    + intros Huniq. rewrite map_app. cbn [map Product._id].
      apply NoDup_app; trivial.
      * repeat constructor. simpl. tauto.
      * intros id Hid [<-|[]]. contradiction.
  - repeat split; trivial.
Qed.

Lemma addProduct_keeps_invariants_witness :
  stockNonNegative (exec (addProduct 7%N pear) sellerWorld)
  /\ uniqueIds (exec (addProduct 7%N pear) sellerWorld)
  /\ cart (exec (addProduct 7%N pear) sellerWorld) = cart sellerWorld
  /\ orders (exec (addProduct 7%N pear) sellerWorld) = orders sellerWorld
  /\ newRegister (exec (addProduct 7%N pear) sellerWorld)
     = newRegister sellerWorld.
Proof.
  assert (Hfresh : ~ In (givenId pear) (map Product._id (products sellerWorld)))
    by (simpl; intuition discriminate).
  destruct (addProduct_keeps_invariants 7%N pear sellerWorld eq_refl Hfresh)
    as [Hnn [Huniq Hrest]].
  split; [apply Hnn; repeat constructor; simpl; lia|].
  split; [apply Huniq; repeat constructor; simpl; intuition discriminate|].
  exact Hrest.
Defined.

(** X20. A product added is a product found: after [addProduct] by a
    registered seller with an [_id] that no product has yet, the stock of
    that [_id] is the quantity given, every product that existed keeps its
    stock, and the new product is the last in the seller's list, so
    [updateStock] offers it under the number after the ones it offered
    before.  For an unknown seller no product is added. *)
Theorem addProduct_then_listed (seller_id : ObjectId) (io : NewProduct)
    (w : World) :
  ~ In (givenId io) (map Product._id (products w)) ->
  match findOne (bySellerId seller_id) (newRegister w) with
  | Some seller =>
      stock (givenId io) (exec (addProduct seller_id io) w)
      = Some (askedQuantity io)
      /\ (forall id, id <> givenId io ->
            stock id (exec (addProduct seller_id io) w) = stock id w)
      /\ productsOf (User.username seller) (exec (addProduct seller_id io) w)
         = (productsOf (User.username seller) w
            ++ [Product.mk (givenId io) (typedName io) (parsedPrice io)
                           (askedQuantity io) (User.username seller)])%list
  | None =>
      products (exec (addProduct seller_id io) w) = products w
      /\ lastLine (exec (addProduct seller_id io) w) = "Seller not found."
  end.
Proof.
  intros Hfresh. unfold exec. rewrite addProduct_run.
  destruct (findOne (bySellerId seller_id) (newRegister w)) as [seller|];
    cbn [snd].
  - split; [|split].
    + unfold stock. cbn [products].
      rewrite findOne_app_none; trivial.
      * destruct (findOne (byId (givenId io)) (products w)) as [p|] eqn:Hp;
          trivial.
        exfalso. apply Hfresh. apply findOne_In in Hp as [Hin Hid].
        unfold byId in Hid. apply N.eqb_eq in Hid. rewrite <- Hid.
        now apply in_map.
      * unfold byId. cbn [Product._id]. apply N.eqb_refl.
    + intros id Hid. unfold stock. cbn [products].
      rewrite findOne_app_other; trivial.
      unfold byId. cbn [Product._id]. apply N.eqb_neq. congruence.
    + unfold productsOf. cbn [products]. rewrite filter_app.
      cbn [List.filter Product.seller_id]. now rewrite String.eqb_refl.
  - split; [reflexivity|]. apply lastLine_set_console1.
Qed.

Lemma addProduct_then_listed_witness :
  stock 8%N (exec (addProduct 7%N pear) sellerWorld) = Some 6
  /\ (forall id, id <> 8%N ->
        stock id (exec (addProduct 7%N pear) sellerWorld) = stock id sellerWorld)
  /\ productsOf "sam" (exec (addProduct 7%N pear) sellerWorld)
     = (productsOf "sam" sellerWorld
        ++ [Product.mk 8%N "pear" 120 6 "sam"])%list.
Proof.
  apply (addProduct_then_listed 7%N pear sellerWorld).
  simpl. intuition discriminate.
Defined.

(** ** Stock adjustment *)

Lemma updateStock_accepted (seller_id : ObjectId) (io : Restock) (w : World)
    (seller : User.t) (number : Z) (selectedProduct : Product.t) :
  findOne (bySellerId seller_id) (newRegister w) = Some seller ->
  productNumber io = Some number ->
  0 <= number - 1 ->
  nth_error (productsOf (User.username seller) w) (Z.to_nat (number - 1))
  = Some selectedProduct ->
  0 <= Product.quantity selectedProduct + updateQuantityOf io ->
  exists lines,
    updateStock seller_id io w =
    (Normal tt,
     mkWorld (updateOne (byId (Product._id selectedProduct))
                        (incQuantity (updateQuantityOf io)) (products w))
             (cart w) (orders w) (newRegister w)
             (console w ++ lines
              ++ [("Stock updated. New stock for "
                   ++ Product.name selectedProduct ++ ": "
                   ++ showZ (Product.quantity selectedProduct
                             + updateQuantityOf io))%string])).
Proof.
  unfold bySellerId, productsOf. intros Hseller Hnumber Hpos Hnth Hsum.
  assert (Hlt : (Z.to_nat (number - 1) <
                 List.length (List.filter
                   (fun p => String.eqb (Product.seller_id p) (User.username seller))
                   (products w)))%nat)
    by (apply nth_error_Some; congruence).
  exists ("Your products:"
          :: stockLines 0 (List.filter
               (fun p => String.eqb (Product.seller_id p) (User.username seller))
               (products w))).
  unfold updateStock, bind, gets, console_log, modify. rewrite Hseller.
  destruct (Nat.eqb_spec (List.length (List.filter
              (fun p => String.eqb (Product.seller_id p) (User.username seller))
              (products w))) 0) as [E|_]; [lia|].
  rewrite logStock_run, Hnumber.
  replace (number - 1 <? 0) with false by (symmetry; apply Z.ltb_ge; lia).
  replace (number - 1 >=? _) with false
    by (symmetry; rewrite Z.geb_leb; apply Z.leb_gt; lia).
  cbn [orb]. rewrite Hnth. fold (updateQuantityOf io).
  apply Z.ltb_ge in Hsum. rewrite Hsum.
  unfold set_console, set_products; cbn. now rewrite <- !app_assoc.
Qed.

Lemma findOne_byId_updateOne_other (id other : ObjectId) (by_ : Z)
    (ps : list Product.t) :
  id <> other ->
  findOne (byId other) (updateOne (byId id) (incQuantity by_) ps)
  = findOne (byId other) ps.
Proof.
  intros Hne. apply findOne_updateOne_other.
  intros d Hd. unfold byId in *. cbn [incQuantity Product._id].
  apply N.eqb_eq in Hd. split; apply N.eqb_neq; congruence.
Qed.

(** X21. An accepted stock adjustment changes the selected product and
    nothing else: for a registered seller, a product number within the
    seller's list, a positive change and a stock that is within the safe
    integers before and after and does not go below zero, [updateStock]
    sets the stock of the selected product to its old stock plus the
    signed change, leaves the stock of every other product, and every
    cart and order, as it was, and reports the new stock. *)
Theorem updateStock_changes_selected_only (seller_id : ObjectId)
    (io : Restock) (w : World) (seller : User.t) (number : Z)
    (selectedProduct : Product.t) :
  uniqueIds w ->
  findOne (bySellerId seller_id) (newRegister w) = Some seller ->
  productNumber io = Some number ->
  0 <= number - 1 ->
  nth_error (productsOf (User.username seller) w) (Z.to_nat (number - 1))
  = Some selectedProduct ->
  0 < quantityChange io <= maxSafeInteger ->
  Product.quantity selectedProduct <= maxSafeInteger ->
  0 <= Product.quantity selectedProduct + updateQuantityOf io
    <= maxSafeInteger ->
  stock (Product._id selectedProduct) (exec (updateStock seller_id io) w)
  = Some (Product.quantity selectedProduct + updateQuantityOf io)
  /\ (forall id, id <> Product._id selectedProduct ->
        stock id (exec (updateStock seller_id io) w) = stock id w)
  /\ cart (exec (updateStock seller_id io) w) = cart w
  /\ orders (exec (updateStock seller_id io) w) = orders w
  /\ lastLine (exec (updateStock seller_id io) w)
     = "Stock updated. New stock for " ++ Product.name selectedProduct ++ ": "
       ++ showZ (Product.quantity selectedProduct + updateQuantityOf io).
Proof.
  intros Huniq Hseller Hnumber Hpos Hnth _ _ [Hsum _].
  destruct (updateStock_accepted seller_id io w seller number selectedProduct)
    as [lines Hrun]; trivial.
  unfold exec. rewrite Hrun. cbn [snd]. unfold stock. cbn [products cart orders].
  assert (Hin : In selectedProduct (products w)).
  { apply nth_error_In in Hnth. unfold productsOf in Hnth.
    now apply filter_In in Hnth. }
  split; [|split; [|split; [|split]]]; trivial.
  - rewrite (findOne_updateOne _ _ (products w) selectedProduct).
    + reflexivity.
    + now apply findOne_unique.
    + unfold byId. cbn [incQuantity Product._id]. apply N.eqb_refl.
  - intros id Hid. rewrite findOne_byId_updateOne_other; congruence.
  - unfold lastLine. cbn [console]. rewrite !app_assoc. apply last_last.
Qed.

Lemma updateStock_changes_selected_only_witness :
  stock 2%N (exec (updateStock 7%N restockQ) sellerWorld) = Some (2 + 10)
  /\ (forall id, id <> 2%N ->
        stock id (exec (updateStock 7%N restockQ) sellerWorld)
        = stock id sellerWorld)
  /\ cart (exec (updateStock 7%N restockQ) sellerWorld) = cart sellerWorld
  /\ orders (exec (updateStock 7%N restockQ) sellerWorld) = orders sellerWorld
  /\ lastLine (exec (updateStock 7%N restockQ) sellerWorld)
     = "Stock updated. New stock for " ++ "Q" ++ ": " ++ showZ (2 + 10).
Proof.
  apply (updateStock_changes_selected_only 7%N restockQ sellerWorld
           (User.mk 7%N "sam" "seller") 2 productQ).
  - repeat constructor; simpl; intuition discriminate.
  - reflexivity.
  - reflexivity.
  - simpl. lia.
  - reflexivity.
  - unfold maxSafeInteger. simpl. lia.
  - unfold maxSafeInteger. simpl. lia.
  - unfold maxSafeInteger. simpl. lia.
Defined.

Lemma updateStock_products_owned (seller_id : ObjectId) (io : Restock)
    (w : World) :
  products (exec (updateStock seller_id io) w) = products w \/
  exists seller selectedProduct,
    findOne (bySellerId seller_id) (newRegister w) = Some seller
    /\ In selectedProduct (productsOf (User.username seller) w)
    /\ products (exec (updateStock seller_id io) w) =
       updateOne (byId (Product._id selectedProduct))
                 (incQuantity (updateQuantityOf io)) (products w).
Proof.
  unfold exec, updateStock, updateQuantityOf, bind, gets, console_log, modify,
    bySellerId, productsOf.
  destruct (findOne _ (newRegister w)) as [seller|]; [|now left].
  destruct (Nat.eqb _ 0); [now left|].
  rewrite logStock_run.
  destruct (productNumber io) as [number|]; [|now left].
  destruct ((number - 1 <? 0) || _)%bool; [now left|].
  destruct (nth_error _ _) as [selectedProduct|] eqn:Hnth; [|now left].
  destruct (Product.quantity selectedProduct + _ <? 0); [now left|].
  right. exists seller, selectedProduct.
  apply nth_error_In in Hnth. repeat split; trivial.
Qed.

Lemma In_updateOne_other {Doc : Type} (q : Doc -> bool) (u : Doc -> Doc)
    (c : list Doc) (d : Doc) :
  In d c -> q d = false -> In d (updateOne q u c).
Proof.
  induction c as [|x c IH]; simpl; [tauto|].
  intros [->|Hin] Hq.
  - rewrite Hq. now left.
  - destruct (q x); right; auto.
Qed.

(** X22. A seller adjusts only their own stock: whatever the answers,
    every product document that does not belong to the seller found for
    the identifier (and every product when no seller is found) is in the
    collection after [updateStock] exactly as it was before. *)
Theorem updateStock_leaves_other_sellers (seller_id : ObjectId) (io : Restock)
    (w : World) (p : Product.t) :
  uniqueIds w ->
  In p (products w) ->
  (forall seller,
     findOne (bySellerId seller_id) (newRegister w) = Some seller ->
     Product.seller_id p <> User.username seller) ->
  In p (products (exec (updateStock seller_id io) w)).
Proof.
  intros Huniq Hin Hother.
  destruct (updateStock_products_owned seller_id io w)
    as [->|[seller [selected [Hseller [Hsel ->]]]]]; trivial.
  apply In_updateOne_other; trivial.
  unfold productsOf in Hsel. apply filter_In in Hsel as [Hsel Howner].
  apply String.eqb_eq in Howner.
  unfold byId. apply N.eqb_neq. intros Hid.
  apply (Hother seller Hseller).
  assert (p = selected); [|congruence].
  pose proof (findOne_unique _ p Huniq Hin) as Hp.
  pose proof (findOne_unique _ selected Huniq Hsel) as Hs.
  rewrite Hid in Hp. congruence.
Qed.

Lemma updateStock_leaves_other_sellers_witness :
  In appleOfKim (products (exec (updateStock 7%N restockQ) marketWorld)).
Proof.
  apply (updateStock_leaves_other_sellers 7%N restockQ marketWorld appleOfKim).
  - repeat constructor; simpl; intuition discriminate.
  - right. left. reflexivity.
  - intros seller H. injection H as <-. discriminate.
Defined.

(** X23. A product number outside the seller's list is refused: when the
    answer is not a number, or is less than 1, or exceeds the number of
    the seller's products, [updateStock] reports an invalid product number
    and changes no product, cart or order. *)
Theorem updateStock_invalid_number (seller_id : ObjectId) (io : Restock)
    (w : World) (seller : User.t) :
  findOne (bySellerId seller_id) (newRegister w) = Some seller ->
  productsOf (User.username seller) w <> [] ->
  match productNumber io with
  | None => True
  | Some number =>
      number < 1
      \/ Z.of_nat (List.length (productsOf (User.username seller) w)) < number
  end ->
  products (exec (updateStock seller_id io) w) = products w
  /\ cart (exec (updateStock seller_id io) w) = cart w
  /\ orders (exec (updateStock seller_id io) w) = orders w
  /\ lastLine (exec (updateStock seller_id io) w) = "Invalid product number.".
Proof.
  unfold bySellerId, productsOf. intros Hseller Hsome Hbad.
  assert (Hrun : exists lines,
    updateStock seller_id io w
    = (Normal tt,
       set_console (console w ++ lines ++ ["Invalid product number."]) w)).
  { exists ("Your products:"
            :: stockLines 0 (List.filter
                 (fun p => String.eqb (Product.seller_id p) (User.username seller))
                 (products w))).
    unfold updateStock, bind, gets, console_log, modify. rewrite Hseller.
    destruct (Nat.eqb_spec (List.length (List.filter
                (fun p => String.eqb (Product.seller_id p) (User.username seller))
                (products w))) 0) as [E|_].
    - apply length_zero_iff_nil in E. contradiction.
    - rewrite logStock_run.
      destruct (productNumber io) as [number|].
      + replace ((number - 1 <? 0) || (number - 1 >=? _))%bool with true.
        * unfold set_console; cbn. now rewrite <- !app_assoc.
        * symmetry. apply orb_true_iff. rewrite Z.geb_leb.
          destruct Hbad; [left; apply Z.ltb_lt | right; apply Z.leb_le]; lia.
      + unfold set_console; cbn. now rewrite <- !app_assoc. }
  destruct Hrun as [lines Hrun]. unfold exec. rewrite Hrun. cbn [snd].
  repeat split. rewrite app_assoc. apply lastLine_set_console1.
Qed.

Lemma updateStock_invalid_number_witness :
  products (exec (updateStock 7%N outOfRange) sellerWorld) = products sellerWorld
  /\ cart (exec (updateStock 7%N outOfRange) sellerWorld) = cart sellerWorld
  /\ orders (exec (updateStock 7%N outOfRange) sellerWorld) = orders sellerWorld
  /\ lastLine (exec (updateStock 7%N outOfRange) sellerWorld)
     = "Invalid product number.".
Proof.
  apply (updateStock_invalid_number 7%N outOfRange sellerWorld
           (User.mk 7%N "sam" "seller")).
  - reflexivity.
  - discriminate.
  - right. simpl. lia.
Defined.

(** ** Snapshot fidelity over a history *)

Section SublistFacts.
Context {A : Type}.

Lemma Sublist_nil_l (l : list A) : Sublist [] l.
Proof.
  induction l as [|x l IH]; [apply Sublist_nil | now apply Sublist_skip].
Qed.

Lemma Sublist_refl (l : list A) : Sublist l l.
Proof.
  induction l as [|x l IH]; [apply Sublist_nil | now apply Sublist_keep].
Qed.

Lemma Sublist_trans (l1 l2 l3 : list A) :
  Sublist l1 l2 -> Sublist l2 l3 -> Sublist l1 l3.
Proof.
  intros H12 H23. revert l1 H12.
  induction H23 as [|x l2 l3 _ IH|x l2 l3 _ IH]; intros l1 H12.
  - exact H12.
  - apply Sublist_skip. now apply IH.
  - inversion H12; subst.
    + apply Sublist_skip. now apply IH.
    + apply Sublist_keep. now apply IH.
Qed.

Lemma Sublist_app (l1 l1' l2 l2' : list A) :
  Sublist l1 l1' -> Sublist l2 l2' -> Sublist (l1 ++ l2) (l1' ++ l2').
Proof.
  intros H1 H2. induction H1 as [|x l1 l1' _ IH|x l1 l1' _ IH]; cbn [app].
  - exact H2.
  - now apply Sublist_skip.
  - now apply Sublist_keep.
Qed.

Lemma Sublist_app_l (l1 l2 : list A) : Sublist l1 (l1 ++ l2).
Proof.
  rewrite <- (app_nil_r l1) at 1.
  apply Sublist_app; [apply Sublist_refl | apply Sublist_nil_l].
Qed.

Lemma Sublist_filter (keep : A -> bool) (l : list A) :
  Sublist (List.filter keep l) l.
Proof.
  induction l as [|x l IH]; cbn [List.filter]; [apply Sublist_nil|].
  destruct (keep x); [now apply Sublist_keep | now apply Sublist_skip].
Qed.

Lemma Sublist_In (l1 l2 : list A) (x : A) :
  Sublist l1 l2 -> In x l1 -> In x l2.
Proof.
  induction 1 as [|y l1 l2 _ IH|y l1 l2 _ IH]; simpl; intuition.
Qed.
End SublistFacts.

Lemma Sublist_map {A B : Type} (f : A -> B) (l1 l2 : list A) :
  Sublist l1 l2 -> Sublist (map f l1) (map f l2).
Proof.
  induction 1 as [|x l1 l2 _ IH|x l1 l2 _ IH]; cbn [map].
  - apply Sublist_nil.
  - now apply Sublist_skip.
  - now apply Sublist_keep.
Qed.

Lemma updateStock_cart (seller_id : ObjectId) (io : Restock) (w : World) :
  cart (exec (updateStock seller_id io) w) = cart w.
Proof.
  unfold exec, updateStock, bind, gets, console_log, modify.
  destruct (findOne _ (newRegister w)) as [seller|]; trivial.
  destruct (Nat.eqb _ 0); trivial.
  rewrite logStock_run.
  destruct (productNumber io) as [number|]; trivial.
  destruct ((number - 1 <? 0) || _)%bool; trivial.
  destruct (nth_error _ _) as [selectedProduct|]; trivial.
  destruct (Product.quantity selectedProduct + _ <? 0); trivial.
Qed.

Lemma addProduct_cart (seller_id : ObjectId) (io : NewProduct) (w : World) :
  cart (exec (addProduct seller_id io) w) = cart w.
Proof.
  unfold exec. rewrite addProduct_run.
  now destruct (findOne (bySellerId seller_id) (newRegister w)).
Qed.

(** Every step of a history keeps the cart documents one to a buyer. *)
Lemma step_uniqueCarts (op : Op) (w : World) :
  uniqueCarts w -> uniqueCarts (step op w).
Proof.
  intros H. destruct (uniqueCarts_kept w H) as [Hadd [Hupdate Horder]].
  destruct op; cbn [step]; auto; unfold uniqueCarts.
  - now rewrite updateStock_cart.
  - now rewrite addProduct_cart.
Qed.

(** One step: the lines of the buyer's cart after it, without their
    quantities, are lines the cart held before it or the line the step
    has built with [addToCart], each one its own and in the same order. *)
Lemma step_lines (userId : string) (op : Op) (w : World) :
  uniqueCarts w ->
  Sublist (map lineKey (snapshot userId (step op w)))
          (map lineKey (snapshot userId w ++ addedBy userId op)).
Proof.
  intros Huniq.
  destruct op as [buyer product quantity|buyer productName newQuantity
                 |buyer io|seller_id io|seller_id io|changed];
    cbn [step addedBy].
  - apply Sublist_map. destruct (String.eqb_spec buyer userId) as [->|Hne].
    + destruct (findOne (byUserId userId) (cart w)) as [c|] eqn:Hc.
      * rewrite (snapshot_addToCart_existing _ _ _ _ _ Hc).
        unfold snapshot. rewrite Hc. unfold addToSet.
        destruct (existsb _ (Cart.items c));
          [apply Sublist_app_l | apply Sublist_refl].
      * destruct (addToCart_fresh userId product quantity w Hc) as [_ Hnew].
        unfold snapshot. rewrite Hnew, Hc. apply Sublist_refl.
    + destruct (snapshot_of_other_buyer buyer userId w Hne) as [-> _].
      rewrite app_nil_r. apply Sublist_refl.
  - rewrite app_nil_r. destruct (String.eqb_spec buyer userId) as [->|Hne].
    + destruct (updateCartItem_cart userId productName newQuantity w)
        as [Hsame|[c [items [Hc [Hcart Hitems]]]]].
      * unfold snapshot. rewrite Hsame. apply Sublist_refl.
      * rewrite (snapshot_replaceOne userId w _ c items Hc Hcart).
        unfold snapshot. rewrite Hc.
        destruct Hitems as [[_ ->]|[_ Hset]].
        -- apply Sublist_map, Sublist_filter.
        -- apply setQuantityAtFirst_lines in Hset as [-> _].
           apply Sublist_refl.
    + destruct (snapshot_of_other_buyer buyer userId w Hne) as [_ [-> _]].
      apply Sublist_refl.
  - rewrite app_nil_r. destruct (String.eqb_spec buyer userId) as [->|Hne].
    + apply Sublist_map. unfold snapshot.
      destruct (placeOrder_cart userId io w) as [->| ->];
        [apply Sublist_refl|].
      destruct (deleteOne_userIds userId (cart w) Huniq) as [_ [-> _]].
      apply Sublist_nil_l.
    + destruct (snapshot_of_other_buyer buyer userId w Hne) as [_ [_ ->]].
      apply Sublist_refl.
  - rewrite app_nil_r. unfold snapshot. rewrite updateStock_cart.
    apply Sublist_refl.
  - rewrite app_nil_r. unfold snapshot. rewrite addProduct_cart.
    apply Sublist_refl.
  - rewrite app_nil_r. apply Sublist_refl.
Qed.

Lemma run_uniqueCarts (history : list Op) (w : World) :
  uniqueCarts w -> uniqueCarts (run history w).
Proof.
  revert w. induction history as [|op later IH]; intros w H; cbn [run]; trivial.
  apply IH. now apply step_uniqueCarts.
Qed.

(** A history: the lines of the buyer's cart at its end, without their
    quantities, are lines the cart held at its start or lines that the
    buyer's calls of [addToCart] have built, each one its own and in the
    same order. *)
Lemma run_lines (userId : string) (history : list Op) (w : World) :
  uniqueCarts w ->
  Sublist (map lineKey (snapshot userId (run history w)))
          (map lineKey (snapshot userId w ++ added userId history)).
Proof.
  revert w. induction history as [|op later IH]; intros w Huniq;
    cbn [run added flat_map].
  - rewrite app_nil_r. apply Sublist_refl.
  - apply Sublist_trans
      with (l2 := map lineKey (snapshot userId (step op w)
                               ++ added userId later)).
    + apply IH. now apply step_uniqueCarts.
    + rewrite app_assoc, !map_app. fold (added userId later).
      apply Sublist_app; [|apply Sublist_refl].
      rewrite <- map_app. now apply step_lines.
Qed.

(** C7. Snapshot fidelity.  Take any history of calls (additions to a
    cart, cart updates, checkouts, stock adjustments, new products, by
    any buyer or seller) and of changes to the product collection, from a
    world with one cart document to a buyer.  For every successful
    checkout after it, the order that is appended carries the lines of
    the buyer's cart as they are, and every one of these lines has the
    product identity, name and unit price of a line the cart held at the
    start or of a line that one of the buyer's calls of [addToCart] in the
    history built from its product, each order line of a call of its
    own, in the order of the calls: the name and the price are those of
    the time of the addition, whatever the product collection has become
    by the time of the checkout. *)
Theorem snapshot_fidelity (userId : string) (history : list Op)
    (io : Checkout) (w0 : World) :
  uniqueCarts w0 ->
  orderPlaced (exec (placeOrder userId io) (run history w0)) ->
  exists c,
    findOne (byUserId userId) (cart (run history w0)) = Some c
    /\ orders (exec (placeOrder userId io) (run history w0))
       = (orders (run history w0) ++ [orderOf userId c io])%list
    /\ Order.items (orderOf userId c io) = Cart.items c
    /\ Sublist (map lineKey (Order.items (orderOf userId c io)))
               (map lineKey (snapshot userId w0 ++ added userId history))
    /\ (forall line,
          In line (Order.items (orderOf userId c io)) ->
          exists source,
            In source (snapshot userId w0 ++ added userId history)
            /\ CartItem.productId line = CartItem.productId source
            /\ CartItem.name line = CartItem.name source
            /\ CartItem.price line = CartItem.price source).
Proof.
  intros Huniq Hplaced.
  destruct (placeOrder_placed userId io (run history w0) Hplaced)
    as [c [Hc [Hi [Hrun Hw']]]].
  pose proof (run_lines userId history w0 Huniq) as Hlines.
  unfold snapshot at 1 in Hlines. rewrite Hc in Hlines.
  exists c. rewrite Hw'. cbn [orders]. repeat split; trivial.
  intros line Hline. cbn [orderOf Order.items] in Hline.
  apply (in_map lineKey) in Hline.
  apply (Sublist_In _ _ _ Hlines) in Hline.
  apply in_map_iff in Hline as [source [Hkey Hsource]].
  exists source. unfold lineKey in Hkey. injection Hkey as H1 H2 H3.
  repeat split; auto.
Qed.

Lemma snapshot_fidelity_witness :
  exists c,
    findOne (byUserId "buyer")
            (cart (run repricing (set_products [productP; productQ] emptyWorld)))
    = Some c
    /\ orders (exec (placeOrder "buyer" yes)
                    (run repricing (set_products [productP; productQ] emptyWorld)))
       = (orders (run repricing (set_products [productP; productQ] emptyWorld))
          ++ [orderOf "buyer" c yes])%list
    /\ Order.items (orderOf "buyer" c yes) = Cart.items c
    /\ Sublist (map lineKey (Order.items (orderOf "buyer" c yes)))
               (map lineKey
                  (snapshot "buyer" (set_products [productP; productQ] emptyWorld)
                   ++ added "buyer" repricing))
    /\ (forall line,
          In line (Order.items (orderOf "buyer" c yes)) ->
          exists source,
            In source
               (snapshot "buyer" (set_products [productP; productQ] emptyWorld)
                ++ added "buyer" repricing)
            /\ CartItem.productId line = CartItem.productId source
            /\ CartItem.name line = CartItem.name source
            /\ CartItem.price line = CartItem.price source).
Proof.
  apply (snapshot_fidelity "buyer" repricing yes
           (set_products [productP; productQ] emptyWorld)).
  - constructor.
  - reflexivity.
Defined.

(** The history of the witness, run: the order holds the line added at
    the old name and price (with its updated quantity) and the line added
    after the renaming, though the collection holds only the new name and
    price at the checkout. *)
Example repricing_order_lines :
  map Order.items
      (orders (exec (placeOrder "buyer" yes)
                    (run repricing (set_products [productP; productQ] emptyWorld))))
  = [[lineOf productQ 1]; [lineOf productP 3; lineOf repricedP 1]]
  /\ map Product.name
         (products (run repricing (set_products [productP; productQ] emptyWorld)))
     = ["P (new)"; "Q"].
Proof. split; reflexivity. Qed.
